(** * build_ios_lib.py: the iOS build driver of the Avro C library

    A shallow embedding of [build_ios_lib.py] and the properties of its
    build and merge steps.  The script is orchestration code: it creates
    directories, sets one environment variable, runs external tools and
    prints progress.  It is modelled as a computation in a small
    state-and-exception monad that logs every line it prints and every call
    it makes to the operating system, together with the answer it got.
    What the operating system answers (which directories can be created,
    what a glob matches, how a tool exits) is not decided by the script: it
    is supplied by a [Host].  The general theorems are proved for all
    hosts; a small simulated host at the end of the definitions gives the
    concrete runs. *)

From Stdlib Require Import ZArith String Ascii List.
From stdpp Require Import base tactics option list strings gmap.

Local Open Scope Z_scope.

(** ** [os.path] on POSIX: the string functions the script uses *)

Module os_path.

Definition sep : ascii := "/"%char.

Definition startswith_sep (s : string) : bool :=
  match s with
  | String c _ => bool_decide (c = sep)
  | EmptyString => false
  end.

Fixpoint endswith_sep (s : string) : bool :=
  match s with
  | EmptyString => false
  | String c EmptyString => bool_decide (c = sep)
  | String _ s' => endswith_sep s'
  end.

(** One round of the loop of [posixpath.join]: an absolute component resets
    the path, otherwise it is appended after exactly one separator. *)
Definition join2 (path b : string) : string :=
  if startswith_sep b then b
  else if bool_decide (path = "") || endswith_sep path then path +:+ b
  else path +:+ "/" +:+ b.

(** [os.path.join(a, *p)] *)
Definition join (a : string) (p : list string) : string :=
  fold_left join2 p a.

Fixpoint lstrip_sep (s : string) : string :=
  match s with
  | String c s' => if bool_decide (c = sep) then lstrip_sep s' else s
  | EmptyString => EmptyString
  end.

Fixpoint drop_to_sep (s : string) : string :=
  match s with
  | String c s' => if bool_decide (c = sep) then s else drop_to_sep s'
  | EmptyString => EmptyString
  end.

(** [os.path.dirname(p)]: everything up to the last separator, with the
    trailing separators removed unless the head consists of separators
    only. *)
Definition dirname (p : string) : string :=
  let head_rev := drop_to_sep (String.rev p) in
  match lstrip_sep head_rev with
  | EmptyString => String.rev head_rev
  | stripped => String.rev stripped
  end.

End os_path.

(** [glob.has_magic]: does the string contain one of the wildcard
    characters [*], [?] and the opening bracket? *)
Fixpoint has_magic (s : string) : bool :=
  match s with
  | EmptyString => false
  | String c s' =>
      bool_decide (c = "*"%char) || bool_decide (c = "?"%char)
      || bool_decide (c = "["%char) || has_magic s'
  end.

(** ** Python values, exceptions and the log *)

Inductive OSErrorKind :=
  | FileNotFoundError
  | FileExistsError
  | NotADirectoryError
  | PermissionError.

(** The exceptions that can arise while the script runs.  [SystemExit] is
    the only one that does not derive from [Exception]. *)
Inductive PyExc :=
  | CalledProcessError (returncode : Z) (cmd : list string)
  | NameError (name : string)
  | TypeError (what : string)
  | IndexError (what : string)
  | OSError (kind : OSErrorKind) (filename : string)
  | PyException (msg : string) (retcode : Z)
  | SystemExit (code : Z).

Definition is_Exception (e : PyExc) : bool :=
  match e with
  | SystemExit _ => false
  | _ => true
  end.

Definition is_file_not_found (e : PyExc) : bool :=
  match e with
  | OSError FileNotFoundError _ => true
  | _ => false
  end.

(** The values module-level names are bound to, as far as the script can
    tell them apart. *)
Inductive PyVal :=
  | PyStr (s : string)
  | PyList (l : list string)
  | PyObject (descr : string).

Inductive Stream := Stdout | Stderr.

(** What [print] writes.  Text whose exact characters depend on Python's
    [repr] or [str] of a value, and the stack trace, are kept structured. *)
Inductive Text :=
  | Line (s : string)
  | ExecutingIn (cmd : list string) (cwd : option string)
  | ErrorOf (e : PyExc)
  | TracebackOf (e : PyExc).

(** The calls that leave the interpreter, and what comes back. *)
Inductive Syscall :=
  | Makedirs (name : string)
  | Putenv (key value : string)
  | Glob (pathname : string)
  | Spawn (cmd : list string) (cwd : option string)
  | Copytree (src dst : string).

Inductive Answer :=
  | Done
  | Failed (kind : OSErrorKind)
  | Matched (paths : list string)
  | Exited (status : Z).

(** One entry of the log: a printed text, or a call with its answer. *)
Inductive Event :=
  | Output (f : Stream) (t : Text)
  | Sys (call : Syscall) (answer : Answer).

Global Instance OSErrorKind_eq_dec : EqDecision OSErrorKind.
Proof. solve_decision. Defined.
Global Instance PyExc_eq_dec : EqDecision PyExc.
Proof. solve_decision. Defined.
Global Instance Stream_eq_dec : EqDecision Stream.
Proof. solve_decision. Defined.
Global Instance Text_eq_dec : EqDecision Text.
Proof. solve_decision. Defined.
Global Instance Syscall_eq_dec : EqDecision Syscall.
Proof. solve_decision. Defined.
Global Instance Answer_eq_dec : EqDecision Answer.
Proof. solve_decision. Defined.
Global Instance Event_eq_dec : EqDecision Event.
Proof. solve_decision. Defined.

(** ** The host: what the operating system answers

    [FS] is the state of the file system.  Child processes run to
    completion and are observed through their exit status and their effect
    on the file system; they inherit the environment but cannot change the
    environment of the script.  Every command is taken to be startable (the
    tools are installed): [subprocess.check_call] then either returns 0 or
    raises [CalledProcessError]. *)
Record Host := {
  FS : Type;
  (** [__file__] of the script *)
  script_file : string;
  (** [os.path.abspath], which depends on the working directory *)
  abspath : string -> string;
  (** [os.path.isdir] *)
  isdir : FS -> string -> bool;
  (** [os.makedirs(name, exist_ok=True)]: [None] on success *)
  makedirs : string -> FS -> option OSErrorKind * FS;
  (** [glob.glob(pathname)] *)
  glob : string -> FS -> list string;
  (** running [cmd] in [cwd] with the given environment until it exits *)
  spawn : list string -> option string -> gmap string string -> FS -> Z * FS;
  (** [shutil.copytree(src, dst, dirs_exist_ok=True)]: [None] on success *)
  copytree : string -> string -> FS -> option OSErrorKind * FS
}.

(** [glob.glob] lists a directory with [os.scandir] and swallows the
    [OSError] of a directory that cannot be listed: when the directory part
    of the pattern holds no wildcard and is not a directory, nothing
    matches.  (An empty directory part would mean the working directory.) *)
Definition glob_skips_missing_dirs (H : Host) : Prop :=
  forall (fs : FS H) (d : string),
    d <> ""%string -> has_magic d = false -> isdir H fs d = false ->
    glob H (os_path.join d ["*.a"%string]) fs = [].

(** ** The monad of the script: state, exceptions and a log *)

(** The part of the world the script can change: the file system and its
    own environment variables ([os.environ]). *)
Record State (H : Host) := {
  fs : FS H;
  environ : gmap string string
}.
Arguments Build_State {H} _ _.
Arguments fs {H} _.
Arguments environ {H} _.

Inductive Result (A : Type) :=
  | Ok (a : A)
  | Raise (e : PyExc).
Arguments Ok {A} a.
Arguments Raise {A} e.

Record Outcome (H : Host) (A : Type) := {
  result : Result A;
  final : State H;
  log : list Event
}.
Arguments Build_Outcome {H A} _ _ _.
Arguments result {H A} _.
Arguments final {H A} _.
Arguments log {H A} _.

Definition M (H : Host) (A : Type) : Type := State H -> Outcome H A.

Section Monad.

Context {H : Host}.

Definition ret {A} (a : A) : M H A :=
  fun s => Build_Outcome (Ok a) s [].

Definition raise {A} (e : PyExc) : M H A :=
  fun s => Build_Outcome (Raise e) s [].

Definition bind {A B} (m : M H A) (f : A -> M H B) : M H B :=
  fun s =>
    match m s with
    | Build_Outcome (Ok a) s1 l1 =>
        match f a s1 with
        | Build_Outcome r s2 l2 => Build_Outcome r s2 (l1 ++ l2)
        end
    | Build_Outcome (Raise e) s1 l1 => Build_Outcome (Raise e) s1 l1
    end.

(** [try: m  except Exception as e: handler e] *)
Definition try_except {A} (m : M H A) (handler : PyExc -> M H A) : M H A :=
  fun s =>
    match m s with
    | Build_Outcome (Ok a) s1 l1 => Build_Outcome (Ok a) s1 l1
    | Build_Outcome (Raise e) s1 l1 =>
        if is_Exception e then
          match handler e s1 with
          | Build_Outcome r s2 l2 => Build_Outcome r s2 (l1 ++ l2)
          end
        else Build_Outcome (Raise e) s1 l1
    end.

(** [for x in xs: body x] *)
Fixpoint for_in {A} (xs : list A) (body : A -> M H unit) : M H unit :=
  match xs with
  | [] => ret tt
  | x :: xs' => bind (body x) (fun _ => for_in xs' body)
  end.

End Monad.

Global Instance M_ret (H : Host) : MRet (M H) := fun A a => ret a.
Global Instance M_bind (H : Host) : MBind (M H) := fun A B f m => bind m f.

(** ** The library and system calls of the script *)

Section Calls.

Context {H : Host}.

(** [print(t, file=f)] *)
Definition print (f : Stream) (t : Text) : M H unit :=
  fun s => Build_Outcome (Ok tt) s [Output f t].

(** [os.makedirs(name, exist_ok=True)] *)
Definition os_makedirs (name : string) : M H unit :=
  fun s =>
    match makedirs H name (fs s) with
    | (None, fs') =>
        Build_Outcome (Ok tt) (Build_State fs' (environ s))
          [Sys (Makedirs name) Done]
    | (Some k, fs') =>
        Build_Outcome (Raise (OSError k name)) (Build_State fs' (environ s))
          [Sys (Makedirs name) (Failed k)]
    end.

(** [os.environ[key] = value] *)
Definition os_environ_set (key value : string) : M H unit :=
  fun s =>
    Build_Outcome (Ok tt) (Build_State (fs s) (<[key := value]> (environ s)))
      [Sys (Putenv key value) Done].

(** [glob.glob(pathname)] *)
Definition glob_glob (pathname : string) : M H (list string) :=
  fun s =>
    let paths := glob H pathname (fs s) in
    Build_Outcome (Ok paths) s [Sys (Glob pathname) (Matched paths)].

(** [subprocess.check_call(cmd, cwd=cwd)]: wait for the command; return 0
    when its exit status is 0 and raise [CalledProcessError] otherwise. *)
Definition check_call (cmd : list string) (cwd : option string) : M H Z :=
  fun s =>
    match spawn H cmd cwd (environ s) (fs s) with
    | (retcode, fs') =>
        Build_Outcome
          (if bool_decide (retcode = 0) then Ok 0
           else Raise (CalledProcessError retcode cmd))
          (Build_State fs' (environ s))
          [Sys (Spawn cmd cwd) (Exited retcode)]
    end.

(** [shutil.copytree(src, dst, dirs_exist_ok=True)] *)
Definition shutil_copytree (src dst : string) : M H unit :=
  fun s =>
    match copytree H src dst (fs s) with
    | (None, fs') =>
        Build_Outcome (Ok tt) (Build_State fs' (environ s))
          [Sys (Copytree src dst) Done]
    | (Some k, fs') =>
        Build_Outcome (Raise (OSError k src)) (Build_State fs' (environ s))
          [Sys (Copytree src dst) (Failed k)]
    end.

(** [sys.exit(code)] *)
Definition sys_exit {A} (code : Z) : M H A := raise (SystemExit code).

(** [os.fspath]: a path argument has to be a string. *)
Definition os_fspath (v : PyVal) : M H string :=
  match v with
  | PyStr p => ret p
  | _ => raise (TypeError "expected str, bytes or os.PathLike object")
  end.

(** [l[i]] for an index that is not negative *)
Definition list_getitem {A} (l : list A) (i : nat) : M H A :=
  match l !! i with
  | Some x => ret x
  | None => raise (IndexError "list index out of range")
  end.

End Calls.

(** ** Name resolution

    A name that is not local to a function is looked up in the globals of
    the module and then in the builtins; when both fail Python raises
    [NameError]. *)

Definition builtin_names : list string :=
  ["ArithmeticError"; "AssertionError"; "AttributeError"; "BaseException";
   "BlockingIOError"; "BrokenPipeError"; "BufferError"; "BytesWarning";
   "ChildProcessError"; "ConnectionAbortedError"; "ConnectionError";
   "ConnectionRefusedError"; "ConnectionResetError"; "DeprecationWarning";
   "EOFError"; "Ellipsis"; "EncodingWarning"; "EnvironmentError";
   "Exception"; "False"; "FileExistsError"; "FileNotFoundError";
   "FloatingPointError"; "FutureWarning"; "GeneratorExit"; "IOError";
   "ImportError"; "ImportWarning"; "IndentationError"; "IndexError";
   "InterruptedError"; "IsADirectoryError"; "KeyError"; "KeyboardInterrupt";
   "LookupError"; "MemoryError"; "ModuleNotFoundError"; "NameError"; "None";
   "NotADirectoryError"; "NotImplemented"; "NotImplementedError"; "OSError";
   "OverflowError"; "PendingDeprecationWarning"; "PermissionError";
   "ProcessLookupError"; "RecursionError"; "ReferenceError";
   "ResourceWarning"; "RuntimeError"; "RuntimeWarning";
   "StopAsyncIteration"; "StopIteration"; "SyntaxError"; "SyntaxWarning";
   "SystemError"; "SystemExit"; "TabError"; "TimeoutError"; "True";
   "TypeError"; "UnboundLocalError"; "UnicodeDecodeError";
   "UnicodeEncodeError"; "UnicodeError"; "UnicodeTranslateError";
   "UnicodeWarning"; "UserWarning"; "ValueError"; "Warning";
   "ZeroDivisionError"; "__build_class__"; "__debug__"; "__doc__";
   "__import__"; "__loader__"; "__name__"; "__package__"; "__spec__";
   "abs"; "aiter"; "all"; "anext"; "any"; "ascii"; "bin"; "bool";
   "breakpoint"; "bytearray"; "bytes"; "callable"; "chr"; "classmethod";
   "compile"; "complex"; "copyright"; "credits"; "delattr"; "dict"; "dir";
   "divmod"; "enumerate"; "eval"; "exec"; "exit"; "filter"; "float";
   "format"; "frozenset"; "getattr"; "globals"; "hasattr"; "hash"; "help";
   "hex"; "id"; "input"; "int"; "isinstance"; "issubclass"; "iter"; "len";
   "license"; "list"; "locals"; "map"; "max"; "memoryview"; "min"; "next";
   "object"; "oct"; "open"; "ord"; "pow"; "print"; "property"; "quit";
   "range"; "repr"; "reversed"; "round"; "set"; "setattr"; "slice";
   "sorted"; "staticmethod"; "str"; "sum"; "super"; "tuple"; "type"; "vars";
   "zip"]%string.

(** ** The script *)

Definition IPHONEOS_DEPLOYMENT_TARGET : string := "13.0".

Definition JANSSON_EXTRA_CMAKE_FLAGS : list string :=
  ["-DJANSSON_WITHOUT_TESTS=ON";
   "-DJANSSON_EXAMPLES=OFF";
   "-DJANSSON_BUILD_DOCS=OFF"]%string.

Record Builder := {
  configuration : string;
  bitcode_enabled : bool;
  deployment_target : string
}.

(** The namespace [parser.parse_args()] returns. *)
Record Namespace := {
  ns_out_dir : string;
  ns_configuration : string;
  ns_bitcode_enabled : bool;
  ns_deployment_target : string
}.

(** The newline and the tab between the paths of a list the script prints *)
Definition nl_tab : string := String "010"%char (String "009"%char "").

(** ["="*60] *)
Definition banner : string := String.concat "" (replicate 60 "="%string).

Section BuildIosLib.

Context {H : Host}.

(** Every name bound at module level: the imports, the two constants, the
    function, the class, what the interpreter binds itself, and the three
    names the [__main__] block has bound by the time it calls the builder. *)
Definition module_globals : gmap string PyVal :=
  list_to_map
    [("__name__", PyStr "__main__"); ("__doc__", PyObject "None");
     ("__package__", PyObject "None"); ("__loader__", PyObject "loader");
     ("__spec__", PyObject "None"); ("__annotations__", PyObject "dict");
     ("__builtins__", PyObject "module"); ("__file__", PyStr (script_file H));
     ("__cached__", PyObject "None");
     ("glob", PyObject "module"); ("re", PyObject "module");
     ("os", PyObject "module"); ("shutil", PyObject "module");
     ("string", PyObject "module"); ("sys", PyObject "module");
     ("argparse", PyObject "module"); ("traceback", PyObject "module");
     ("multiprocessing", PyObject "module");
     ("check_call", PyObject "function");
     ("check_output", PyObject "function");
     ("CalledProcessError", PyObject "class");
     ("IPHONEOS_DEPLOYMENT_TARGET", PyStr IPHONEOS_DEPLOYMENT_TARGET);
     ("JANSSON_EXTRA_CMAKE_FLAGS", PyList JANSSON_EXTRA_CMAKE_FLAGS);
     ("execute", PyObject "function"); ("Builder", PyObject "class");
     ("parser", PyObject "ArgumentParser"); ("args", PyObject "Namespace");
     ("b", PyObject "Builder")]%string.

Definition load_global (name : string) : M H PyVal :=
  match module_globals !! name with
  | Some v => mret v
  | None =>
      if bool_decide (name ∈ builtin_names) then mret (PyObject "builtin")
      else raise (NameError name)
  end.

Definition execute (cmd : list string) (cwd : option string) : M H unit :=
  print Stderr (ExecutingIn cmd cwd) ;;
  print Stdout (Line ("Executing: " +:+ String.concat " " cmd)) ;;
  retcode ← check_call cmd cwd;
  if bool_decide (retcode ≠ 0)
  then raise (PyException "Child returned:" retcode)
  else mret tt.

Definition get_path_relative_to_script (path_components : list string)
  : string :=
  let script_dir_path := abspath H (os_path.dirname (script_file H)) in
  os_path.join script_dir_path path_components.

Definition get_toolchain : string :=
  get_path_relative_to_script ["ios-cmake"; "ios.toolchain.cmake"]%string.

Definition get_platforms : list string := ["SIMULATOR64"; "OS64"]%string.

Definition platform_install_dir (out_dir platform : string) : string :=
  os_path.join out_dir [platform].

Definition platform_lib_file (lib_name platform : string) : string :=
  lib_name +:+ "_" +:+ platform +:+ ".a".

Definition get_cmake_xcode_generate_command (self : Builder)
    (platform install_dir root_dir : string) (extra_flags : list string)
  : list string :=
  ["cmake";
   root_dir;
   "-GXcode";
   "-DCMAKE_TOOLCHAIN_FILE=" +:+ get_toolchain;
   "-DPLATFORM=" +:+ platform;
   "-DCMAKE_XCODE_ATTRIBUTE_CODE_SIGN_IDENTITY=''";
   "-DCMAKE_XCODE_ATTRIBUTE_DEVELOPMENT_TEAM=''";
   "-DBUILD_SHARED_LIBS=OFF";
   "-DDEPLOYMENT_TARGET=" +:+ deployment_target self;
   "-DENABLE_BITCODE=" +:+ (if bitcode_enabled self then "ON" else "OFF");
   "-DCMAKE_INSTALL_PREFIX=" +:+ install_dir]%string
  ++ extra_flags.

Definition get_cmake_build_command (self : Builder) : list string :=
  let args :=
    ["cmake";
     "--build";
     ".";
     "--clean-first";
     "--config";
     configuration self;
     "--target";
     "install"]%string in
  args.

Definition build_platform (self : Builder)
    (platform build_dir install_dir root_dir : string)
    (extra_cmake_flags : list string) : M H unit :=
  os_environ_set "PKG_CONFIG_PATH"
    (os_path.join install_dir ["lib"; "pkgconfig"]%string) ;;
  execute
    (get_cmake_xcode_generate_command self platform install_dir root_dir
       extra_cmake_flags)
    (Some build_dir) ;;
  execute (get_cmake_build_command self) (Some build_dir).

Definition _build (self : Builder) (out_dir root_dir lib_name : string)
    (extra_cmake_flags : list string) : M H unit :=
  let out_dir := abspath H out_dir in
  let root_dir := get_path_relative_to_script [root_dir] in
  os_makedirs out_dir ;;
  let build_path := os_path.join out_dir [lib_name; "build"%string] in
  for_in get_platforms (fun platform =>
    let platform_build_dir := os_path.join build_path [platform] in
    os_makedirs platform_build_dir ;;
    print Stdout (Line ("Creating directory " +:+ platform_build_dir)) ;;
    let platform_install_dir := os_path.join out_dir [platform] in
    build_platform self platform platform_build_dir platform_install_dir
      root_dir extra_cmake_flags).

Definition merge_libs_in_directory (directory_path out_lib_file_path : string)
  : M H unit :=
  print Stdout (Line ("Merging libraries in path " +:+ directory_path)) ;;
  libs ← glob_glob (os_path.join directory_path ["*.a"%string]);
  print Stderr
    (Line ("Merging libraries:" +:+ nl_tab +:+ String.concat nl_tab libs)) ;;
  execute (["libtool"; "-static"; "-o"; out_lib_file_path]%string ++ libs)
    None.

Definition create_universal_static_lib
    (directory_path out_lib_file_path : string) : M H unit :=
  libs ← glob_glob (os_path.join directory_path ["*.a"%string]);
  let lipocmd := ["lipo"; "-create"]%string in
  let lipocmd := lipocmd ++ libs in
  let lipocmd := lipocmd ++ ["-o"%string; out_lib_file_path] in
  print Stderr
    (Line ("Creating universal library from:" +:+ nl_tab
           +:+ String.concat nl_tab libs)) ;;
  execute lipocmd None.

Definition merge_libs (self : Builder) (out_dir lib_name : string)
  : M H unit :=
  let out_dir := abspath H out_dir in
  let platform_libs_path := os_path.join out_dir ["intermediate"%string] in
  os_makedirs platform_libs_path ;;
  let platforms := get_platforms in
  for_in platforms (fun platform =>
    let platform_install_dir := platform_install_dir out_dir platform in
    let platform_merged_lib_file :=
      os_path.join platform_libs_path [platform_lib_file lib_name platform] in
    let platform_lib_dir :=
      os_path.join platform_install_dir ["lib"%string] in
    merge_libs_in_directory platform_lib_dir platform_merged_lib_file) ;;
  let framework_path := os_path.join out_dir [lib_name +:+ ".framework"] in
  let framework_include_path :=
    os_path.join framework_path ["include"%string] in
  final_lib_path ← load_global "final_lib_path";
  final_lib_path ← os_fspath final_lib_path;
  os_makedirs final_lib_path ;;
  final_include_path ← load_global "final_include_path";
  final_include_path ← os_fspath final_include_path;
  os_makedirs final_include_path ;;
  create_universal_static_lib platform_libs_path
    (os_path.join framework_path [lib_name]) ;;
  platforms_0 ← list_getitem platforms 0;
  let platform_include_dir :=
    os_path.join (platform_install_dir out_dir platforms_0)
      ["include"%string] in
  shutil_copytree platform_include_dir framework_include_path.

Definition build (self : Builder) (out_dir root_dir lib_name : string)
    (extra_cmake_flags : option (list string)) : M H unit :=
  let extra_cmake_flags := default [] extra_cmake_flags in
  try_except
    (_build self out_dir root_dir lib_name extra_cmake_flags)
    (fun e =>
       print Stderr (Line banner) ;;
       print Stderr (ErrorOf e) ;;
       print Stderr (Line banner) ;;
       print Stderr (TracebackOf e) ;;
       sys_exit 1).

(** The body of [if __name__ == "__main__":] once the command line has been
    parsed. *)
Definition main_block (args : Namespace) : M H unit :=
  let b :=
    Build_Builder (ns_configuration args) (ns_bitcode_enabled args)
      (ns_deployment_target args) in
  build b (ns_out_dir args) "jansson" "jansson"
    (Some JANSSON_EXTRA_CMAKE_FLAGS) ;;
  build b (ns_out_dir args) (os_path.join "lang" ["c"%string]) "avro" None ;;
  merge_libs b (ns_out_dir args) "avro".

(** The script as a process: its exit status, the state it leaves and
    everything it did.  The interpreter exits with 0 when the block ends,
    with the code of a [SystemExit], and with 1 after printing the stack
    trace of any other exception that nobody caught. *)
Record Process := {
  exit_status : Z;
  left_state : State H;
  trace : list Event
}.

Definition run_script (args : Namespace) (s : State H) : Process :=
  match main_block args s with
  | Build_Outcome (Ok _) s' l => Build_Process 0 s' l
  | Build_Outcome (Raise (SystemExit code)) s' l => Build_Process code s' l
  | Build_Outcome (Raise e) s' l =>
      Build_Process 1 s' (l ++ [Output Stderr (TracebackOf e)])
  end.

End BuildIosLib.

Arguments module_globals : clear implicits.
Arguments get_path_relative_to_script : clear implicits.
Arguments get_toolchain : clear implicits.
Arguments get_cmake_xcode_generate_command : clear implicits.

(** What [argparse] makes of a well-formed command line: the positional
    output directory, the required [--configuration] choice, the
    [--enable-bitcode] switch and the optional [--deployment_target]. *)
Inductive ConfigurationChoice := Debug | Release.

Definition choice_str (c : ConfigurationChoice) : string :=
  match c with
  | Debug => "Debug"
  | Release => "Release"
  end.

Definition parse_args (out_dir : string) (configuration : ConfigurationChoice)
    (enable_bitcode : bool) (deployment_target : option string) : Namespace :=
  {| ns_out_dir := out_dir;
     ns_configuration := choice_str configuration;
     ns_bitcode_enabled := enable_bitcode;
     ns_deployment_target :=
       default IPHONEOS_DEPLOYMENT_TARGET deployment_target |}.

(** ** Reading the log *)

(** The calls of a log in order, without their answers and without the
    printed text. *)
Fixpoint calls (l : list Event) : list Syscall :=
  match l with
  | [] => []
  | Sys c _ :: l' => c :: calls l'
  | Output _ _ :: l' => calls l'
  end.

(** The commands of a log in order, each with its working directory. *)
Fixpoint spawned (l : list Event) : list (list string * option string) :=
  match l with
  | [] => []
  | Sys (Spawn cmd cwd) _ :: l' => (cmd, cwd) :: spawned l'
  | _ :: l' => spawned l'
  end.

(** What went to the diagnostic stream. *)
Fixpoint stderr_of (l : list Event) : list Text :=
  match l with
  | [] => []
  | Output Stderr t :: l' => t :: stderr_of l'
  | _ :: l' => stderr_of l'
  end.

(** A call that did not succeed: a directory that could not be created, a
    tree that could not be copied, a command that exited with a status
    other than 0. *)
Definition failed (e : Event) : bool :=
  match e with
  | Sys _ (Failed _) => true
  | Sys _ (Exited status) => negb (bool_decide (status = 0))
  | _ => false
  end.

(** ** What the spec says a build does

    For each platform of the fixed set, simulator then device: create the
    build directory, point pkg-config at the install directory of the
    platform, run the project-generation command in the build directory,
    run the build-and-install command with target [install] there. *)

Definition platform_build_plan (H : Host) (self : Builder)
    (out_dir root_dir lib_name : string) (flags : list string)
    (platform : string) : list Syscall :=
  let build_dir :=
    os_path.join (os_path.join out_dir [lib_name; "build"%string]) [platform] in
  let install_dir := os_path.join out_dir [platform] in
  [Makedirs build_dir;
   Putenv "PKG_CONFIG_PATH"
     (os_path.join install_dir ["lib"; "pkgconfig"]%string);
   Spawn
     (get_cmake_xcode_generate_command H self platform install_dir root_dir
        flags)
     (Some build_dir);
   Spawn
     ["cmake"; "--build"; "."; "--clean-first"; "--config";
      configuration self; "--target"; "install"]%string
     (Some build_dir)].

Definition build_plan (H : Host) (self : Builder)
    (out_dir root_dir lib_name : string) (flags : list string)
  : list Syscall :=
  let out := abspath H out_dir in
  let root := get_path_relative_to_script H [root_dir] in
  Makedirs out
  :: platform_build_plan H self out root lib_name flags "SIMULATOR64"
  ++ platform_build_plan H self out root lib_name flags "OS64".

(** ** The discipline of the pkg-config search path

    A project-generation command is recognised by its generator argument. *)
Definition is_generate (c : Syscall) : bool :=
  match c with
  | Spawn cmd _ => bool_decide (cmd !! 2%nat = Some "-GXcode"%string)
  | _ => false
  end.

Definition is_putenv (c : Syscall) : bool :=
  match c with
  | Putenv _ _ => true
  | _ => false
  end.

(** In a sequence of calls that keeps the discipline, the environment is
    written only to set [PKG_CONFIG_PATH] to [lib/pkgconfig] under the
    install directory of a platform, immediately before the generation
    command of that platform, and no generation command runs without it. *)
Inductive pkg_config_discipline (out : string) : list Syscall -> Prop :=
  | pcd_nil : pkg_config_discipline out []
  | pcd_build platform cmd cwd rest :
      platform ∈ ["SIMULATOR64"; "OS64"]%string ->
      cmd !! 2%nat = Some "-GXcode"%string ->
      cmd !! 4%nat = Some ("-DPLATFORM=" +:+ platform) ->
      cmd !! 10%nat
        = Some ("-DCMAKE_INSTALL_PREFIX=" +:+ os_path.join out [platform]) ->
      pkg_config_discipline out rest ->
      pkg_config_discipline out
        (Putenv "PKG_CONFIG_PATH"
           (os_path.join (os_path.join out [platform])
              ["lib"; "pkgconfig"]%string)
         :: Spawn cmd cwd :: rest)
  | pcd_other c rest :
      is_putenv c = false ->
      is_generate c = false ->
      pkg_config_discipline out rest ->
      pkg_config_discipline out (c :: rest).

(** ** What the merge step does before its first undefined name

    The intermediate directory is created; then, for each platform, the
    static libraries under [lib] of its install directory are globbed and
    the archiver merges them ([libs1] and [libs2] are what the two globs
    match) into the archive of the platform in the intermediate
    directory. *)
Definition merge_platform_plan (H : Host) (out_dir lib_name : string)
    (libs1 libs2 : list string) : list Syscall :=
  let out := abspath H out_dir in
  let intermediate := os_path.join out ["intermediate"%string] in
  let lib_dir platform :=
    os_path.join (os_path.join out [platform]) ["lib"%string] in
  let archive platform :=
    os_path.join intermediate [lib_name +:+ "_" +:+ platform +:+ ".a"] in
  [Makedirs intermediate;
   Glob (os_path.join (lib_dir "SIMULATOR64") ["*.a"]);
   Spawn (["libtool"; "-static"; "-o"; archive "SIMULATOR64"] ++ libs1) None;
   Glob (os_path.join (lib_dir "OS64") ["*.a"]);
   Spawn (["libtool"; "-static"; "-o"; archive "OS64"] ++ libs2) None]%string.

(** ** Specifications of computations *)

(** [m] follows [plan]: whatever the host answers, the calls [m] makes are
    an initial segment of the plan, in the order of the plan; they are the
    whole plan when [m] returns; and [m] returns exactly when none of its
    calls fails. *)
Definition follows {H : Host} (m : M H unit) (plan : list Syscall) : Prop :=
  forall s : State H,
    calls (log (m s)) `prefix_of` plan
    ∧ (result (m s) = Ok tt -> calls (log (m s)) = plan)
    ∧ (result (m s) = Ok tt <-> existsb failed (log (m s)) = false).

(** [m] respects [P], [R] and [Q]: every log of [m] satisfies [P], [m]
    takes every state to one related to it by [R], and [m] raises nothing
    but exceptions that satisfy [Q]. *)
Definition respects {H : Host} {A} (P : list Event -> Prop)
    (R : State H -> State H -> Prop) (Q : PyExc -> Prop) (m : M H A) : Prop :=
  forall s : State H,
    P (log (m s))
    ∧ R s (final (m s))
    ∧ (forall e, result (m s) = Raise e -> Q e).

(** Only [PKG_CONFIG_PATH] may differ between the two environments. *)
Definition same_environ_but_pkg_config {H : Host} (s s' : State H) : Prop :=
  forall k : string,
    k <> "PKG_CONFIG_PATH"%string -> environ s' !! k = environ s !! k.

(** The banner is not among the lines on the diagnostic stream. *)
Definition no_banner (l : list Event) : Prop :=
  Line banner ∉ stderr_of l.

(** ** A simulated host

    A small file system for running the script on concrete inputs: the
    directories that exist, each with the names of the entries in it.  The
    tools leave it alone and exit with the status [exit_of] gives their
    command line. *)

Module Sim.

Definition fs_t : Type := list (string * list string).

(** [p] names a directory that exists.  A trailing separator makes no
    difference: two paths name the same directory when the patterns that
    list them are the same. *)
Definition is_dir (fs : fs_t) (p : string) : bool :=
  existsb
    (fun entry =>
       bool_decide
         (os_path.join entry.1 ["*.a"%string] = os_path.join p ["*.a"%string]))
    fs.

Definition make_dirs (name : string) (fs : fs_t) : option OSErrorKind * fs_t :=
  (None, if is_dir fs name then fs else fs ++ [(name, [])]).

Fixpoint endswith_dot_a (s : string) : bool :=
  match s with
  | String "."%char (String "a"%char EmptyString) => true
  | String _ s' => endswith_dot_a s'
  | EmptyString => false
  end.

Definition is_hidden (s : string) : bool :=
  match s with
  | String "."%char _ => true
  | _ => false
  end.

(** The matches of the pattern [d/*.a]: the entries of the directory [d]
    whose name ends in [.a] and does not start with a dot. *)
Definition glob_dirs (pathname : string) (fs : fs_t) : list string :=
  flat_map
    (fun entry =>
       if bool_decide (os_path.join entry.1 ["*.a"%string] = pathname)
       then map (fun n => os_path.join entry.1 [n])
              (List.filter (fun n => endswith_dot_a n && negb (is_hidden n))
                 entry.2)
       else [])
    fs.

Definition copy_tree (src dst : string) (fs : fs_t)
  : option OSErrorKind * fs_t :=
  if is_dir fs src then make_dirs dst fs else (Some FileNotFoundError, fs).

Definition host (exit_of : list string -> Z) : Host :=
  {| FS := fs_t;
     script_file := "/src/avro/build_ios_lib.py";
     abspath := fun p => p;
     isdir := is_dir;
     makedirs := make_dirs;
     glob := glob_dirs;
     spawn := fun cmd _ _ fs => (exit_of cmd, fs);
     copytree := copy_tree |}.

Definition start {exit_of} (fs : fs_t) : State (host exit_of) :=
  Build_State (fs : FS (host exit_of)) ∅.

(** Every tool succeeds. *)
Definition all_ok (cmd : list string) : Z := 0.

(** The tool called [tool] exits with 1, every other tool succeeds. *)
Definition fails (tool : string) (cmd : list string) : Z :=
  if bool_decide (head cmd = Some tool) then 1 else 0.

(** The project-generation command of [platform] exits with 1, every other
    command succeeds. *)
Definition generate_fails (platform : string) (cmd : list string) : Z :=
  if bool_decide (cmd !! 4%nat = Some ("-DPLATFORM=" +:+ platform)) then 1
  else 0.

(** An output directory after a build: both platforms installed, two
    static libraries and the headers in each. *)
Definition built : fs_t :=
  [("/out", []);
   ("/out/SIMULATOR64", ["lib"; "include"]);
   ("/out/SIMULATOR64/lib", ["libavro.a"; "libjansson.a"; "pkgconfig"]);
   ("/out/SIMULATOR64/include", ["avro.h"; "jansson.h"]);
   ("/out/OS64", ["lib"; "include"]);
   ("/out/OS64/lib", ["libavro.a"; "libjansson.a"; "pkgconfig"]);
   ("/out/OS64/include", ["avro.h"; "jansson.h"])]%string.


(** A builder and a command line to run the script with. *)
Definition release_builder : Builder :=
  {| configuration := "Release";
     bitcode_enabled := false;
     deployment_target := IPHONEOS_DEPLOYMENT_TARGET |}.

Definition command_line : Namespace := parse_args "/out" Release false None.

(** Every command whose second argument is [root], the source directory of
    a project-generation command, exits with 1; every other command
    succeeds. *)
Definition source_fails (root : string) (cmd : list string) : Z :=
  if bool_decide (cmd !! 1%nat = Some root) then 1 else 0.

End Sim.

(** ** Reading a whole run *)

(** What [build] prints before it exits, for the exception [e] it has
    caught: the banner, the error, the banner, the stack trace. *)
Definition failure_report (e : PyExc) : list Event :=
  [Output Stderr (Line banner); Output Stderr (ErrorOf e);
   Output Stderr (Line banner); Output Stderr (TracebackOf e)].

(** A log in which every command is announced: the two lines of [execute],
    the one with the working directory on the diagnostic stream and the
    joined command line on the standard output, come immediately before
    the command.  A command cannot be passed over: only the last rule
    takes one. *)
Inductive announced : list Event -> Prop :=
  | announced_nil : announced []
  | announced_output f t rest :
      announced rest -> announced (Output f t :: rest)
  | announced_call c a rest :
      (forall cmd cwd, c <> Spawn cmd cwd) ->
      announced rest -> announced (Sys c a :: rest)
  | announced_command cmd cwd a rest :
      announced rest ->
      announced
        (Output Stderr (ExecutingIn cmd cwd)
         :: Output Stdout (Line ("Executing: " +:+ String.concat " " cmd))
         :: Sys (Spawn cmd cwd) a :: rest).

(** A call of the build and of the per-platform merge: any command is
    [cmake] or [libtool], and no tree is copied. *)
Definition is_cmake_or_libtool (c : Syscall) : bool :=
  match c with
  | Spawn cmd _ =>
      bool_decide (head cmd = Some "cmake"%string)
      || bool_decide (head cmd = Some "libtool"%string)
  | Copytree _ _ => false
  | _ => true
  end.

(** What the command line asks of a [cmake] command: a project-generation
    command carries the deployment target, [13.0] when none is given, and
    the bitcode switch; a build-and-install command carries the
    configuration. *)
Definition cmake_as_asked (configuration : ConfigurationChoice)
    (enable_bitcode : bool) (deployment_target : option string)
    (c : Syscall) : Prop :=
  match c with
  | Spawn cmd _ =>
      head cmd = Some "cmake"%string ->
      (cmd !! 2%nat = Some "-GXcode"%string
       ∧ cmd !! 8%nat
         = Some ("-DDEPLOYMENT_TARGET="
                 +:+ default "13.0"%string deployment_target)
       ∧ cmd !! 9%nat
         = Some (if enable_bitcode then "-DENABLE_BITCODE=ON"
                 else "-DENABLE_BITCODE=OFF")%string)
      ∨ cmd
        = ["cmake"; "--build"; "."; "--clean-first"; "--config";
           match configuration with
           | Debug => "Debug"
           | Release => "Release"
           end;
           "--target"; "install"]%string
  | _ => True
  end.

(** The log of a run that stops at its first failure: no call is made
    after a call that did not succeed. *)
Fixpoint stops_at_failure (l : list Event) : bool :=
  match l with
  | [] => true
  | ev :: l' =>
      if failed ev then bool_decide (calls l' = [])
      else stops_at_failure l'
  end.

(** The exception a call raises for the answer it got, as [os_makedirs],
    [shutil_copytree] and [check_call] have it: the [OSError] of a
    directory or a tree with its path, the [CalledProcessError] of a
    command with its exit status; nothing for an answer that is no
    failure. *)
Definition exception_of (c : Syscall) (a : Answer) : option PyExc :=
  match c, a with
  | Makedirs name, Failed kind => Some (OSError kind name)
  | Copytree src _, Failed kind => Some (OSError kind src)
  | Spawn cmd _, Exited status =>
      if bool_decide (status = 0) then None
      else Some (CalledProcessError status cmd)
  | _, _ => None
  end.

(** ** Tactics for running the script step by step *)

Ltac unfold_calls :=
  unfold os_makedirs, print, os_environ_set, glob_glob, shutil_copytree,
    sys_exit, raise, list_getitem, os_fspath, mbind, M_bind, bind, mret,
    M_ret, ret.

(** One answer of the host: split on it and name what it was. *)
Ltac host_step :=
  match goal with
  | |- context [makedirs ?H ?n ?f] =>
      let E := fresh "Hmk" in
      destruct (makedirs H n f) as [[?|] ?] eqn:E
  | |- context [spawn ?H ?c ?w ?e ?f] =>
      let rc := fresh "rc" in
      let E := fresh "Hsp" in
      destruct (spawn H c w e f) as [rc ?] eqn:E;
      destruct (decide (rc = 0))
  | |- context [copytree ?H ?a ?b ?f] =>
      let E := fresh "Hcp" in
      destruct (copytree H a b f) as [[?|] ?] eqn:E
  end.

(** The exit statuses that are known decide the tests on them. *)
Ltac decide_statuses :=
  repeat match goal with
    | Hx : ?rc = 0 |- _ => rewrite !(bool_decide_eq_true_2 (rc = 0) Hx)
    | Hx : ?rc <> 0 |- _ => rewrite !(bool_decide_eq_false_2 (rc = 0) Hx)
    end.

(** Every command of an explicit log is announced. *)
Ltac announce :=
  repeat first
    [ apply announced_nil
    | apply announced_command
    | apply announced_output
    | apply announced_call; [done|] ].

(** One goal for each call of an explicit plan. *)
Ltac each_call :=
  repeat first [apply Forall_nil_2 | apply Forall_cons_2 | apply Forall_app_2].

(** * Proofs *)

Arguments os_path.join : simpl never.
Arguments get_cmake_xcode_generate_command : simpl never.
Arguments get_cmake_build_command : simpl never.
Arguments get_path_relative_to_script : simpl never.
Arguments platform_lib_file : simpl never.
Arguments platform_install_dir : simpl never.
Arguments execute : simpl never.

(** ** The log *)

Lemma calls_app (l1 l2 : list Event) : calls (l1 ++ l2) = calls l1 ++ calls l2.
Proof.
  induction l1 as [|[f t|c a] l1 IH]; simpl; [done|done|by rewrite IH].
Qed.

Lemma stderr_of_app (l1 l2 : list Event) :
  stderr_of (l1 ++ l2) = stderr_of l1 ++ stderr_of l2.
Proof.
  induction l1 as [|[[|] t|c a] l1 IH]; simpl; rewrite ?IH; done.
Qed.

Lemma no_banner_app (l1 l2 : list Event) :
  no_banner l1 -> no_banner l2 -> no_banner (l1 ++ l2).
Proof.
  unfold no_banner. rewrite stderr_of_app, elem_of_app. tauto.
Qed.

(** In a log that stops at its first failure, no call comes after an
    entry that failed. *)
Lemma stops_at_failure_no_call_after (l l1 l2 : list Event) (ev : Event) :
  stops_at_failure l = true -> l = l1 ++ ev :: l2 -> failed ev = true ->
  calls l2 = [].
Proof.
  revert l1. induction l as [|ev0 l IH]; intros l1 Hstops Hl Hev.
  - by destruct l1.
  - simpl in Hstops. destruct l1 as [|x l1]; simplify_eq/=.
    + rewrite Hev in Hstops. by apply bool_decide_eq_true in Hstops.
    + destruct (failed x).
      * apply bool_decide_eq_true in Hstops.
        rewrite calls_app in Hstops.
        apply app_eq_nil in Hstops as [_ Hstops].
        destruct ev as [f t|c a]; [done|]. discriminate Hstops.
      * by apply (IH l1).
Qed.

(** When such a log ends with a call, an entry that failed is that call:
    nothing at all comes after it. *)
Lemma first_failure_is_last (l l1 l2 : list Event) (ev : Event)
    (c : Syscall) (a : Answer) :
  stops_at_failure l = true -> last l = Some (Sys c a) ->
  l = l1 ++ ev :: l2 -> failed ev = true ->
  l2 = [] ∧ ev = Sys c a.
Proof.
  intros Hstops Hlast Hl Hev.
  pose proof (stops_at_failure_no_call_after l l1 l2 ev Hstops Hl Hev)
    as Hcalls.
  subst l. destruct l2 as [|x l2 _] using rev_ind.
  - rewrite last_snoc in Hlast. by simplify_eq.
  - rewrite app_comm_cons, app_assoc, last_snoc in Hlast.
    simplify_eq. rewrite calls_app in Hcalls.
    apply app_eq_nil in Hcalls as [_ Hcalls]. discriminate Hcalls.
Qed.

(** ** Sequencing *)

Section Sequencing.

Context {H : Host}.

Lemma bind_run {A B} (m : M H A) (f : A -> M H B) (s : State H) :
  (m ≫= f) s =
  match result (m s) with
  | Ok a =>
      Build_Outcome (result (f a (final (m s)))) (final (f a (final (m s))))
        (log (m s) ++ log (f a (final (m s))))
  | Raise e => Build_Outcome (Raise e) (final (m s)) (log (m s))
  end.
Proof.
  unfold mbind, M_bind, bind.
  destruct (m s) as [[a|e] s1 l1]; simpl; [|done].
  by destruct (f a s1).
Qed.

Lemma try_except_run {A} (m : M H A) (handler : PyExc -> M H A) (s : State H) :
  try_except m handler s =
  match result (m s) with
  | Ok a => Build_Outcome (Ok a) (final (m s)) (log (m s))
  | Raise e =>
      if is_Exception e then
        Build_Outcome (result (handler e (final (m s))))
          (final (handler e (final (m s))))
          (log (m s) ++ log (handler e (final (m s))))
      else Build_Outcome (Raise e) (final (m s)) (log (m s))
  end.
Proof.
  unfold try_except.
  destruct (m s) as [[a|e] s1 l1]; simpl; [done|].
  destruct (is_Exception e); [|done]. by destruct (handler e s1).
Qed.

(** What [execute] comes to: the two lines it prints, the command it waits
    for, and an exception exactly when the exit status is not 0. *)
Lemma execute_run (cmd : list string) (cwd : option string) (s : State H) :
  execute cmd cwd s =
  match spawn H cmd cwd (environ s) (fs s) with
  | (retcode, fs') =>
      Build_Outcome
        (if bool_decide (retcode = 0) then Ok tt
         else Raise (CalledProcessError retcode cmd))
        (Build_State fs' (environ s))
        [Output Stderr (ExecutingIn cmd cwd);
         Output Stdout (Line ("Executing: " +:+ String.concat " " cmd));
         Sys (Spawn cmd cwd) (Exited retcode)]
  end.
Proof.
  unfold execute, check_call, print, mbind, M_bind, bind.
  destruct (spawn H cmd cwd (environ s) (fs s)) as [retcode fs'].
  cbn. case_bool_decide as Hrc; [|reflexivity].
  subst retcode. reflexivity.
Qed.

(** *** Computations that follow a plan *)

Lemma follows_ret : follows (H:=H) (mret tt) [].
Proof. intros s. by cbn. Qed.

Lemma follows_seq (m1 m2 : M H unit) (p1 p2 : list Syscall) :
  follows m1 p1 -> follows m2 p2 -> follows (m1 ;; m2) (p1 ++ p2).
Proof.
  intros H1 H2 s. rewrite bind_run.
  destruct (H1 s) as (Hpre & Hall & Hok).
  destruct (result (m1 s)) as [[]|e] eqn:Hr; simpl.
  - destruct (H2 (final (m1 s))) as (Hpre2 & Hall2 & Hok2).
    rewrite calls_app, existsb_app, Hall by done.
    assert (existsb failed (log (m1 s)) = false) as -> by by apply Hok.
    split; [by apply prefix_app|].
    split; [by intros ->%Hall2|]. done.
  - split; [by apply prefix_app_r|].
    split; [done|]. split; [done|].
    intros Hf. by apply Hok in Hf.
Qed.

Lemma follows_print (f : Stream) (t : Text) : follows (H:=H) (print f t) [].
Proof. intros s. by cbn. Qed.

Lemma follows_makedirs (name : string) :
  follows (H:=H) (os_makedirs name) [Makedirs name].
Proof.
  intros s. unfold os_makedirs.
  destruct (makedirs H name (fs s)) as [[k|] fs']; cbn; by repeat split.
Qed.

Lemma follows_environ_set (key value : string) :
  follows (H:=H) (os_environ_set key value) [Putenv key value].
Proof. intros s. by cbn. Qed.

Lemma follows_execute (cmd : list string) (cwd : option string) :
  follows (H:=H) (execute cmd cwd) [Spawn cmd cwd].
Proof.
  intros s. rewrite execute_run.
  destruct (spawn H cmd cwd (environ s) (fs s)) as [rc fs'].
  destruct (decide (rc = 0)) as [Hrc|Hrc]; cbn.
  - rewrite !(bool_decide_eq_true_2 _ Hrc). by repeat split.
  - rewrite !(bool_decide_eq_false_2 _ Hrc). by repeat split.
Qed.

Lemma follows_for_in {A} (xs : list A) (body : A -> M H unit)
    (plan : A -> list Syscall) :
  (forall x, follows (body x) (plan x)) ->
  follows (for_in xs body) (flat_map plan xs).
Proof.
  intros Hbody. induction xs as [|x xs IH]; simpl.
  - apply follows_ret.
  - apply (follows_seq (body x) (for_in xs body)); [apply Hbody|apply IH].
Qed.

End Sequencing.

(** *** Properties of every log, relations between states *)

Section Invariants.

Context {H : Host}.
Variable P : list Event -> Prop.
Variable R : State H -> State H -> Prop.
Variable Q : PyExc -> Prop.
Hypothesis P_nil : P [].
Hypothesis P_app : forall l1 l2, P l1 -> P l2 -> P (l1 ++ l2).
Hypothesis R_refl : forall s, R s s.
Hypothesis R_trans : forall s1 s2 s3, R s1 s2 -> R s2 s3 -> R s1 s3.

Lemma respects_ret {A} (a : A) : respects (H:=H) P R Q (mret a).
Proof. intros s. cbn. by repeat split. Qed.

Lemma respects_bind {A B} (m : M H A) (f : A -> M H B) :
  respects P R Q m -> (forall a, respects P R Q (f a)) ->
  respects P R Q (m ≫= f).
Proof.
  intros Hm Hf s. rewrite bind_run.
  destruct (Hm s) as (HP & HR & HQ).
  destruct (result (m s)) as [a|e]; simpl.
  - destruct (Hf a (final (m s))) as (HP' & HR' & HQ').
    split; [by apply P_app|]. split; [by eapply R_trans|done].
  - split; [done|]. split; [done|]. intros e' [= <-]. by apply HQ.
Qed.

Lemma respects_for_in {A} (xs : list A) (body : A -> M H unit) :
  (forall x, x ∈ xs -> respects P R Q (body x)) ->
  respects P R Q (for_in xs body).
Proof.
  induction xs as [|x xs IH]; intros Hbody; simpl.
  - apply (respects_ret tt).
  - apply (respects_bind (body x)).
    + apply Hbody. by left.
    + intros _. apply IH. intros y Hy. apply Hbody. by right.
Qed.

End Invariants.

(** ** The commands *)

(** C4. For every platform identifier, deployment target and bitcode flag,
    the project-generation command holds the literal substitutions: its
    fifth argument is [-DPLATFORM=] followed by the platform, its ninth
    [-DDEPLOYMENT_TARGET=] followed by the deployment target, its tenth
    [-DENABLE_BITCODE=ON] when the flag is set and [-DENABLE_BITCODE=OFF]
    when it is not; the caller's extra flags follow the eleven arguments
    of the driver. *)
Theorem generate_command_substitutions (H : Host) (self : Builder)
    (platform install_dir root_dir : string) (extra_flags : list string) :
  let cmd :=
    get_cmake_xcode_generate_command H self platform install_dir root_dir
      extra_flags in
  cmd !! 4%nat = Some ("-DPLATFORM=" +:+ platform)
  ∧ cmd !! 8%nat = Some ("-DDEPLOYMENT_TARGET=" +:+ deployment_target self)
  ∧ cmd !! 9%nat
    = Some (if bitcode_enabled self then "-DENABLE_BITCODE=ON"
            else "-DENABLE_BITCODE=OFF")%string
  ∧ ("-DPLATFORM=" +:+ platform) ∈ cmd
  ∧ ("-DDEPLOYMENT_TARGET=" +:+ deployment_target self) ∈ cmd
  ∧ (if bitcode_enabled self then "-DENABLE_BITCODE=ON"
     else "-DENABLE_BITCODE=OFF")%string ∈ cmd
  ∧ drop 11 cmd = extra_flags.
Proof.
  intros cmd. subst cmd. unfold get_cmake_xcode_generate_command.
  assert (forall (i : nat) (x : string) (l k : list string),
            l !! i = Some x -> x ∈ l ++ k) as Hin.
  { intros i x l k Hx. apply elem_of_app. left.
    by apply (list_elem_of_lookup_2 l i). }
  destruct (bitcode_enabled self); repeat split; try reflexivity;
    first [ eapply (Hin 4%nat); reflexivity
          | eapply (Hin 8%nat); reflexivity
          | eapply (Hin 9%nat); reflexivity ].
Qed.

Section Steps.

Context {H : Host}.

(** C9. [check_call] returns 0 or raises [CalledProcessError] itself, so
    the test on the return code in [execute] never fires: [execute]
    returns exactly when the command exits with status 0, raises
    [CalledProcessError] exactly when it exits with another status, and
    never raises the exception of its own branch. *)
Theorem execute_returns_iff_exit_zero (cmd : list string)
    (cwd : option string) (s : State H) :
  let retcode := (spawn H cmd cwd (environ s) (fs s)).1 in
  let o := execute cmd cwd s in
  result (check_call cmd cwd s)
    = (if bool_decide (retcode = 0) then Ok 0
       else Raise (CalledProcessError retcode cmd))
  ∧ (result o = Ok tt <-> retcode = 0)
  ∧ (result o = Raise (CalledProcessError retcode cmd) <-> retcode <> 0)
  ∧ (forall e, result o = Raise e ->
       e = CalledProcessError retcode cmd ∧ retcode <> 0)
  ∧ (forall msg n, result o <> Raise (PyException msg n)).
Proof.
  intros retcode o. subst retcode o.
  rewrite execute_run. unfold check_call.
  destruct (spawn H cmd cwd (environ s) (fs s)) as [rc fs'].
  destruct (decide (rc = 0)) as [Hrc|Hrc]; cbn.
  - rewrite !(bool_decide_eq_true_2 _ Hrc). naive_solver.
  - rewrite !(bool_decide_eq_false_2 _ Hrc). naive_solver.
Qed.



(** C3, as the code has it.  When the [lib] directory of a platform does
    not exist (as when its install directory is missing), the merge step
    raises no file-not-found error: the glob matches nothing, the archiver
    is run with the output path and no input, and the step returns when
    the archiver exits with status 0 and raises [CalledProcessError]
    otherwise. *)
Theorem merge_in_missing_directory (Hglob : glob_skips_missing_dirs H)
    (directory_path out_lib_file_path : string) (s : State H) :
  directory_path <> ""%string ->
  has_magic directory_path = false ->
  isdir H (fs s) directory_path = false ->
  let o := merge_libs_in_directory directory_path out_lib_file_path s in
  let cmd := ["libtool"; "-static"; "-o"; out_lib_file_path]%string in
  let status := (spawn H cmd None (environ s) (fs s)).1 in
  spawned (log o) = [(cmd, None)]
  ∧ (status = 0 -> result o = Ok tt)
  ∧ (status <> 0 -> result o = Raise (CalledProcessError status cmd))
  ∧ (forall e, result o = Raise e -> is_file_not_found e = false).
Proof.
  intros Hne Hmagic Hdir o cmd status. subst o cmd status.
  unfold merge_libs_in_directory.
  repeat (rewrite bind_run; cbn).
  rewrite (Hglob _ _ Hne Hmagic Hdir), execute_run.
  cbn. destruct (spawn H _ None _ _) as [rc fs']. cbn.
  destruct (decide (rc = 0)) as [Hrc|Hrc].
  - rewrite !(bool_decide_eq_true_2 _ Hrc). by repeat split.
  - rewrite !(bool_decide_eq_false_2 _ Hrc).
    repeat split; try done. by intros e [= <-].
Qed.

End Steps.

(** ** The build step *)

Section BuildStep.

Context {H : Host}.

Lemma build_platform_follows_plan (self : Builder)
    (platform build_dir install_dir root_dir : string) (flags : list string) :
  follows (H:=H)
    (build_platform self platform build_dir install_dir root_dir flags)
    [Putenv "PKG_CONFIG_PATH"
       (os_path.join install_dir ["lib"; "pkgconfig"]%string);
     Spawn
       (get_cmake_xcode_generate_command H self platform install_dir root_dir
          flags)
       (Some build_dir);
     Spawn (get_cmake_build_command self) (Some build_dir)].
Proof.
  unfold build_platform.
  apply (follows_seq _ _ [_] _); [apply follows_environ_set|].
  apply (follows_seq _ _ [_] [_]); apply follows_execute.
Qed.

Lemma build_follows_plan (self : Builder) (out_dir root_dir lib_name : string)
    (flags : list string) :
  follows (H:=H) (_build self out_dir root_dir lib_name flags)
    (build_plan H self out_dir root_dir lib_name flags).
Proof.
  unfold _build, build_plan.
  apply (follows_seq _ _ [_] _); [apply follows_makedirs|].
  rewrite <- (app_nil_r (platform_build_plan _ _ _ _ _ _ "OS64")).
  apply (follows_for_in get_platforms _
           (platform_build_plan H self (abspath H out_dir)
              (get_path_relative_to_script H [root_dir]) lib_name flags)).
  intros platform. unfold platform_build_plan.
  apply (follows_seq _ _ [_] _); [apply follows_makedirs|].
  apply (follows_seq _ _ [] _); [apply follows_print|].
  apply build_platform_follows_plan.
Qed.

(** Every run of [_build], by the answers of the host: its commands are
    announced, it stops at the first call that fails, an exception it
    raises is that of the call its log ends with, and when it returns the
    search path of pkg-config is that of the device, the last platform. *)
Lemma build_cases (self : Builder) (out_dir root_dir lib_name : string)
    (flags : list string) (s : State H) :
  let o := _build self out_dir root_dir lib_name flags s in
  announced (log o)
  ∧ stops_at_failure (log o) = true
  ∧ (forall e,
       result o = Raise e ->
       exists c a, last (log o) = Some (Sys c a) ∧ exception_of c a = Some e)
  ∧ (result o = Ok tt ->
     environ (final o)
     = <["PKG_CONFIG_PATH"%string :=
           os_path.join (os_path.join (abspath H out_dir) ["OS64"%string])
             ["lib"; "pkgconfig"]%string]> (environ s)).
Proof.
  intros o. subst o.
  unfold _build, build_platform, for_in, get_platforms.
  unfold_calls.
  repeat (cbv beta iota zeta; rewrite ?execute_run; decide_statuses;
          try host_step).
  all: cbn; decide_statuses; cbn.
  all: (split; [announce|]).
  all: (split; [reflexivity|]).
  all: (split;
          [first [ by intros exc [=]
                 | intros exc [= <-]; eexists _, _; split; [reflexivity|];
                   cbn; decide_statuses; reflexivity ]|]).
  all: try (intros [=]; fail).
  all: intros _; apply insert_insert_eq.
Qed.

(** C7, as the code has it.  The platforms are the simulator, then the
    device.  The calls of a build are, in this order, an initial segment
    of the plan: the output directory, then for each platform the build
    directory, the search path of pkg-config, the project-generation
    command and the build-and-install command with target [install], both
    run in the build directory.  The build returns exactly when none of
    its calls fails, and it has then made every call of the plan.  The
    first call that fails ends it: the build raises the exception of
    that call, and nothing comes after the call, so that no step that
    remains, of this platform or of the later one, is performed. *)
Theorem build_steps_in_order (self : Builder)
    (out_dir root_dir lib_name : string) (flags : list string)
    (s : State H) :
  let o := _build self out_dir root_dir lib_name flags s in
  let plan := build_plan H self out_dir root_dir lib_name flags in
  get_platforms = ["SIMULATOR64"; "OS64"]%string
  ∧ calls (log o) `prefix_of` plan
  ∧ (result o = Ok tt -> calls (log o) = plan)
  ∧ (result o = Ok tt <-> existsb failed (log o) = false)
  ∧ stops_at_failure (log o) = true
  ∧ (forall l1 ev l2,
       log o = l1 ++ ev :: l2 -> failed ev = true ->
       l2 = []
       ∧ exists c a e,
           ev = Sys c a ∧ exception_of c a = Some e ∧ result o = Raise e).
Proof.
  intros o plan. split; [reflexivity|].
  destruct (build_follows_plan self out_dir root_dir lib_name flags s)
    as (Hpre & Hall & Hok).
  destruct (build_cases self out_dir root_dir lib_name flags s)
    as (_ & Hstops & Hraise & _).
  fold o in Hpre, Hall, Hok, Hstops, Hraise.
  split; [exact Hpre|]. split; [exact Hall|]. split; [exact Hok|].
  split; [exact Hstops|].
  intros l1 ev l2 Hlog Hev.
  destruct (result o) as [[]|e] eqn:Hres.
  - assert (existsb failed (log o) = false) as Hnone by by apply Hok.
    rewrite Hlog, existsb_app in Hnone. simpl in Hnone.
    rewrite Hev, orb_true_r in Hnone. discriminate Hnone.
  - destruct (Hraise e eq_refl) as (c & a & Hlast & Hexc).
    destruct (first_failure_is_last (log o) l1 l2 ev c a Hstops Hlast Hlog Hev)
      as [-> ->].
    split; [done|]. by exists c, a, e.
Qed.

End BuildStep.

(** ** The merge step *)

Lemma banner_starts_with_equals : exists t, banner = String "="%char t.
Proof. eexists. vm_compute. reflexivity. Qed.

Lemma merging_line_is_no_banner (x : string) :
  Line ("Merging libraries:" +:+ x) <> Line banner.
Proof.
  destruct banner_starts_with_equals as [t ->].
  change ("Merging libraries:" +:+ x)
    with (String "M"%char ("erging libraries:" +:+ x)).
  intros [= ?].
Qed.

Section MergeStep.

Context {H : Host}.

Lemma load_global_unbound (name : string) :
  module_globals H !! name = None -> name ∉ builtin_names ->
  load_global (H:=H) name = raise (NameError name).
Proof.
  intros Hg Hb. unfold load_global. rewrite Hg.
  by rewrite bool_decide_eq_false_2.
Qed.

Lemma final_lib_path_unbound :
  module_globals H !! "final_lib_path"%string = None
  ∧ "final_lib_path"%string ∉ builtin_names.
Proof.
  split; [reflexivity|].
  apply (bool_decide_eq_false_1 _); vm_compute; reflexivity.
Qed.


(** Every run of [merge_libs], by the answers of the host. *)
Lemma merge_libs_cases (self : Builder) (out_dir lib_name : string)
    (s : State H) :
  let o := merge_libs self out_dir lib_name s in
  (result o = Raise (NameError "final_lib_path")
   ∨ (exists kind,
        result o
        = Raise
            (OSError kind
               (os_path.join (abspath H out_dir) ["intermediate"%string])))
   ∨ (exists status cmd,
        status <> 0 ∧ head cmd = Some "libtool"%string
        ∧ result o = Raise (CalledProcessError status cmd)))
  ∧ (result o = Raise (NameError "final_lib_path")
     <-> existsb failed (log o) = false)
  ∧ (exists libs1 libs2,
       calls (log o)
         `prefix_of` merge_platform_plan H out_dir lib_name libs1 libs2)
  ∧ no_banner (log o)
  ∧ environ (final o) = environ s.
Proof.
  intros o. subst o.
  unfold merge_libs, merge_libs_in_directory, for_in, get_platforms,
    merge_platform_plan, platform_install_dir, platform_lib_file, no_banner.
  rewrite (load_global_unbound "final_lib_path")
    by apply final_lib_path_unbound.
  unfold_calls.
  repeat (cbv beta iota zeta; rewrite ?execute_run; decide_statuses;
          try host_step).
  all: cbn; decide_statuses; cbn.
  all: (split;
          [first [ by left
                 | right; left; by eexists
                 | right; right; eexists _, _; split_and!;
                   [| |reflexivity]; done ]|]).
  all: (split; [done|]).
  all: (split; [eexists _, _; eexists; reflexivity|]).
  all: (split; [|reflexivity]).
  all: rewrite ?elem_of_cons, elem_of_nil.
  all: intros Hin; repeat destruct Hin as [Hin|Hin]; try done.
  all: symmetry in Hin; by apply merging_line_is_no_banner in Hin.
  Unshelve. all: exact [].
Qed.


(** Every exception of [merge_libs] derives from [Exception]. *)
Lemma merge_libs_raises (self : Builder) (out_dir lib_name : string)
    (s : State H) :
  exists e,
    result (merge_libs self out_dir lib_name s) = Raise e
    ∧ is_Exception e = true.
Proof.
  destruct (merge_libs_cases self out_dir lib_name s) as (Hraise & _).
  destruct Hraise as [He|[[k He]|(rc & cmd & _ & _ & He)]];
    rewrite He; by eexists.
Qed.

End MergeStep.

(** ** The environment and the banner *)

Lemma pkg_config_discipline_app (out : string) (l1 l2 : list Syscall) :
  pkg_config_discipline out l1 -> pkg_config_discipline out l2 ->
  pkg_config_discipline out (l1 ++ l2).
Proof.
  induction 1; intros Hl2; simpl; [done|..].
  - apply pcd_build; auto.
  - apply pcd_other; auto.
Qed.

Lemma pkg_config_discipline_others (out : string) (l : list Syscall) :
  Forall (fun c => is_putenv c = false ∧ is_generate c = false) l ->
  pkg_config_discipline out l.
Proof.
  induction 1 as [|c l [Hp Hg] _ IH]; [apply pcd_nil|by apply pcd_other].
Qed.

Lemma merge_platform_plan_others (H : Host) (out_dir lib_name : string)
    (libs1 libs2 : list string) :
  Forall (fun c => is_putenv c = false ∧ is_generate c = false)
    (merge_platform_plan H out_dir lib_name libs1 libs2).
Proof. unfold merge_platform_plan. repeat constructor. Qed.

Section Environment.

Context {H : Host}.

Lemma same_environ_but_pkg_config_refl (s : State H) :
  same_environ_but_pkg_config s s.
Proof. by intros k _. Qed.

Lemma same_environ_but_pkg_config_trans (s1 s2 s3 : State H) :
  same_environ_but_pkg_config s1 s2 -> same_environ_but_pkg_config s2 s3 ->
  same_environ_but_pkg_config s1 s3.
Proof. intros H12 H23 k Hk. by rewrite H23, H12. Qed.

(** What holds of every run of a build: the discipline of the search
    path, no banner on the diagnostic stream, an environment that differs
    in [PKG_CONFIG_PATH] at most, and no exception besides those that
    derive from [Exception]. *)
Lemma build_respects (self : Builder) (out_dir root_dir lib_name : string)
    (flags : list string) :
  respects (H:=H)
    (fun l =>
       pkg_config_discipline (abspath H out_dir) (calls l) ∧ no_banner l)
    same_environ_but_pkg_config
    (fun e => is_Exception e = true)
    (_build self out_dir root_dir lib_name flags).
Proof.
  unfold _build.
  assert (forall l1 l2 : list Event,
            pkg_config_discipline (abspath H out_dir) (calls l1)
            ∧ no_banner l1 ->
            pkg_config_discipline (abspath H out_dir) (calls l2)
            ∧ no_banner l2 ->
            pkg_config_discipline (abspath H out_dir) (calls (l1 ++ l2))
            ∧ no_banner (l1 ++ l2)) as P_app.
  { intros l1 l2 [] []. split; [|by apply no_banner_app].
    rewrite calls_app. by apply pkg_config_discipline_app. }
  apply respects_bind;
    [exact P_app|exact same_environ_but_pkg_config_trans|..].
  { intros s. unfold os_makedirs, no_banner.
    destruct (makedirs _ _ _) as [[k|] fs']; cbn.
    all: repeat split; try done.
    all: try (apply pcd_other; [done..|apply pcd_nil]).
    all: try apply not_elem_of_nil.
    by intros e [= <-]. }
  intros _. apply respects_for_in;
    [split; [apply pcd_nil|apply not_elem_of_nil]
    |exact P_app
    |exact same_environ_but_pkg_config_refl
    |exact same_environ_but_pkg_config_trans|].
  intros platform Hin s.
  unfold build_platform, no_banner. unfold_calls.
  repeat (cbv beta iota zeta; rewrite ?execute_run; decide_statuses;
          try host_step).
  all: cbn.
  all: repeat split; try done.
  all: try apply not_elem_of_nil.
  all: try (intros k Hk; cbn; by rewrite ?lookup_insert_ne by done).
  all: try (intros e' [= <-]; done).
  all: try (rewrite !elem_of_cons, elem_of_nil;
            intros Hl; repeat destruct Hl as [Hl|Hl]; done).
  all: try (apply pcd_other; [done..|apply pcd_nil]).
  all: apply pcd_other; [done..|].
  all: (apply pcd_build; [done|reflexivity..|]).
  all: repeat (apply pcd_other; [done..|]).
  all: apply pcd_nil.
Qed.

End Environment.

(** ** The whole script *)

Section Script.

Context {H : Host}.

(** What [build] makes of [_build]: it returns when [_build] does, and
    otherwise prints the banner, the error, the banner and the stack
    trace to the diagnostic stream and exits with status 1. *)
Lemma build_run (self : Builder) (out_dir root_dir lib_name : string)
    (flags : option (list string)) (s : State H) :
  let o := _build self out_dir root_dir lib_name (default [] flags) s in
  build self out_dir root_dir lib_name flags s =
  match result o with
  | Ok a => Build_Outcome (Ok a) (final o) (log o)
  | Raise e =>
      Build_Outcome (Raise (SystemExit 1)) (final o)
        (log o
         ++ [Output Stderr (Line banner); Output Stderr (ErrorOf e);
             Output Stderr (Line banner); Output Stderr (TracebackOf e)])
  end.
Proof.
  intros o. subst o. unfold build. rewrite try_except_run.
  destruct (build_respects self out_dir root_dir lib_name (default [] flags) s)
    as (_ & _ & Hexc).
  destruct (result _) as [a|e]; [done|].
  by rewrite (Hexc e eq_refl).
Qed.

Lemma build_ok_has_no_banner (self : Builder)
    (out_dir root_dir lib_name : string) (flags : option (list string))
    (s : State H) :
  result (build self out_dir root_dir lib_name flags s) = Ok tt ->
  no_banner (log (build self out_dir root_dir lib_name flags s)).
Proof.
  rewrite build_run.
  destruct (build_respects self out_dir root_dir lib_name (default [] flags) s)
    as ((_ & Hnb) & _).
  destruct (result (_build _ _ _ _ _ s)) as [a|e]; cbn; [done|].
  by intros [=].
Qed.

Lemma build_keeps_discipline (self : Builder)
    (out_dir root_dir lib_name : string) (flags : option (list string)) :
  respects (H:=H)
    (fun l => pkg_config_discipline (abspath H out_dir) (calls l))
    same_environ_but_pkg_config
    (fun e => e = SystemExit 1)
    (build self out_dir root_dir lib_name flags).
Proof.
  intros s. rewrite build_run.
  destruct (build_respects self out_dir root_dir lib_name (default [] flags) s)
    as ((Hd & _) & HR & _).
  destruct (result _) as [a|e]; cbn; [done|].
  rewrite calls_app, app_nil_r. split; [done|]. split; [done|].
  by intros e' [= <-].
Qed.

Lemma merge_keeps_discipline (self : Builder) (out_dir lib_name : string) :
  respects (H:=H)
    (fun l => pkg_config_discipline (abspath H out_dir) (calls l))
    same_environ_but_pkg_config
    (fun e => is_Exception e = true)
    (merge_libs self out_dir lib_name).
Proof.
  intros s.
  destruct (merge_libs_raises self out_dir lib_name s) as (e & He & Hexc).
  destruct (merge_libs_cases self out_dir lib_name s)
    as (_ & _ & (libs1 & libs2 & k & Hplan) & _ & Henv).
  split.
  - apply pkg_config_discipline_others.
    pose proof (merge_platform_plan_others H out_dir lib_name libs1 libs2)
      as Hothers.
    rewrite Hplan in Hothers. by apply Forall_app in Hothers as [? _].
  - split; [intros key _; by rewrite Henv|].
    intros e'. rewrite He. by intros [= <-].
Qed.

Lemma main_block_respects (args : Namespace) :
  respects (H:=H)
    (fun l => pkg_config_discipline (abspath H (ns_out_dir args)) (calls l))
    same_environ_but_pkg_config
    (fun e => e = SystemExit 1 ∨ is_Exception e = true)
    (main_block args).
Proof.
  assert (forall (A : Type) (m : M H A) (Q : PyExc -> Prop),
            respects
              (fun l =>
                 pkg_config_discipline (abspath H (ns_out_dir args)) (calls l))
              same_environ_but_pkg_config Q m ->
            (forall e, Q e -> e = SystemExit 1 ∨ is_Exception e = true) ->
            respects
              (fun l =>
                 pkg_config_discipline (abspath H (ns_out_dir args)) (calls l))
              same_environ_but_pkg_config
              (fun e => e = SystemExit 1 ∨ is_Exception e = true) m) as Hweak.
  { intros A m Q Hm HQ s. destruct (Hm s) as (? & ? & Hexc).
    split; [done|]. split; [done|]. intros e He. by apply HQ, Hexc. }
  assert (forall l1 l2 : list Event,
            pkg_config_discipline (abspath H (ns_out_dir args)) (calls l1) ->
            pkg_config_discipline (abspath H (ns_out_dir args)) (calls l2) ->
            pkg_config_discipline (abspath H (ns_out_dir args))
              (calls (l1 ++ l2))) as P_app.
  { intros l1 l2 ? ?. rewrite calls_app.
    by apply pkg_config_discipline_app. }
  unfold main_block.
  apply respects_bind;
    [exact P_app|exact same_environ_but_pkg_config_trans|..].
  { eapply Hweak; [apply build_keeps_discipline|]. intros e ->. by left. }
  intros _. apply respects_bind;
    [exact P_app|exact same_environ_but_pkg_config_trans|..].
  { eapply Hweak; [apply build_keeps_discipline|]. intros e ->. by left. }
  intros _. eapply Hweak; [apply merge_keeps_discipline|].
  intros e He. by right.
Qed.

(** The script never ends its block: [merge_libs] raises even when both
    builds succeed. *)
Lemma main_block_raises (args : Namespace) (s : State H) :
  exists e, result (main_block args s) = Raise e.
Proof.
  unfold main_block.
  set (b := Build_Builder _ _ _).
  rewrite bind_run.
  set (o1 := build b _ _ _ _ s).
  destruct (result o1) as [[]|e1]; [|by eexists].
  cbn. rewrite bind_run.
  set (o2 := build b _ _ _ _ (final o1)).
  destruct (result o2) as [[]|e2]; [|by eexists].
  cbn.
  destruct (merge_libs_raises b (ns_out_dir args) "avro" (final o2))
    as (e & He & _).
  exists e. exact He.
Qed.

(** Whatever goes wrong, and also when nothing does, the exit status of
    the script is 1. *)
Lemma run_script_exit_status (args : Namespace) (s : State H) :
  exit_status (run_script args s) = 1.
Proof.
  unfold run_script.
  destruct (main_block_raises args s) as [e He].
  destruct (main_block_respects args s) as (_ & _ & Hexc).
  specialize (Hexc e He).
  destruct (main_block args s) as [r s' l]. cbn in He. subst r.
  destruct Hexc as [->|Hexc]; [done|]. by destruct e.
Qed.


(** A failure in a build is reported: the banner, the error, the banner
    and the stack trace are the last lines of the diagnostic stream, and
    the script exits with status 1 without building or merging anything
    else. *)
Lemma build_failure_is_reported (args : Namespace) (s : State H) (e : PyExc) :
  let b :=
    Build_Builder (ns_configuration args) (ns_bitcode_enabled args)
      (ns_deployment_target args) in
  let o :=
    _build b (ns_out_dir args) "jansson" "jansson" JANSSON_EXTRA_CMAKE_FLAGS
      s in
  result o = Raise e ->
  exit_status (run_script args s) = 1
  ∧ trace (run_script args s)
    = log o
      ++ [Output Stderr (Line banner); Output Stderr (ErrorOf e);
          Output Stderr (Line banner); Output Stderr (TracebackOf e)].
Proof.
  intros b o Ho. split; [apply run_script_exit_status|].
  unfold run_script, main_block. fold b.
  rewrite bind_run, build_run. cbn. fold o. by rewrite Ho.
Qed.

(** X3. A failure in the merge step is not reported as that of a build
    is: when both builds have succeeded, nothing catches the exception of
    [merge_libs]; the interpreter prints its stack trace and exits with
    status 1, and no banner is printed. *)
Lemma merge_failure_is_not_reported (args : Namespace) (s : State H) :
  let b :=
    Build_Builder (ns_configuration args) (ns_bitcode_enabled args)
      (ns_deployment_target args) in
  let o1 :=
    build b (ns_out_dir args) "jansson" "jansson"
      (Some JANSSON_EXTRA_CMAKE_FLAGS) s in
  let o2 :=
    build b (ns_out_dir args) (os_path.join "lang" ["c"%string]) "avro" None
      (final o1) in
  let o3 := merge_libs b (ns_out_dir args) "avro" (final o2) in
  result o1 = Ok tt -> result o2 = Ok tt ->
  exists e,
    result o3 = Raise e
    ∧ exit_status (run_script args s) = 1
    ∧ trace (run_script args s)
      = log o1 ++ log o2 ++ log o3 ++ [Output Stderr (TracebackOf e)]
    ∧ no_banner (trace (run_script args s)).
Proof.
  intros b o1 o2 o3 H1 H2.
  destruct (merge_libs_raises b (ns_out_dir args) "avro" (final o2))
    as (e & He & Hexc).
  destruct (merge_libs_cases b (ns_out_dir args) "avro" (final o2))
    as (_ & _ & _ & Hnb & _).
  fold o3 in He, Hnb.
  exists e. split; [done|]. split; [apply run_script_exit_status|].
  assert (trace (run_script args s)
          = log o1 ++ log o2 ++ log o3 ++ [Output Stderr (TracebackOf e)])
    as Htrace.
  { unfold run_script, main_block. fold b.
    rewrite bind_run. fold o1. rewrite H1. cbn.
    rewrite bind_run. fold o2. rewrite H2. cbn. fold o3. rewrite He.
    destruct e; try done; cbn; by rewrite <- !app_assoc. }
  split; [done|]. rewrite Htrace.
  repeat apply no_banner_app; try done.
  - by apply build_ok_has_no_banner.
  - by apply build_ok_has_no_banner.
  - unfold no_banner. cbn. by rewrite list_elem_of_singleton.
Qed.

End Script.

(** ** Runs on the simulated host *)

Lemma sim_glob_skips_missing_dirs (exit_of : list string -> Z) :
  glob_skips_missing_dirs (Sim.host exit_of).
Proof.
  intros fs d _ _. simpl. unfold Sim.is_dir, Sim.glob_dirs.
  induction fs as [|entry fs IH]; simpl; [done|].
  intros [Hentry Hfs]%orb_false_iff.
  apply bool_decide_eq_false in Hentry.
  rewrite bool_decide_eq_false_2 by done. simpl. by apply IH.
Qed.



(** A build in which every call succeeds. *)
Lemma build_steps_in_order_witness :
  result (_build (H:=Sim.host Sim.all_ok) Sim.release_builder "/out" "jansson"
            "jansson" JANSSON_EXTRA_CMAKE_FLAGS (Sim.start []))
  = Ok tt
  ∧ calls
      (log (_build (H:=Sim.host Sim.all_ok) Sim.release_builder "/out"
              "jansson" "jansson" JANSSON_EXTRA_CMAKE_FLAGS (Sim.start [])))
    = build_plan (Sim.host Sim.all_ok) Sim.release_builder "/out" "jansson"
        "jansson" JANSSON_EXTRA_CMAKE_FLAGS.
Proof.
  destruct (build_steps_in_order (H:=Sim.host Sim.all_ok) Sim.release_builder
              "/out" "jansson" "jansson" JANSSON_EXTRA_CMAKE_FLAGS
              (Sim.start []))
    as (_ & _ & Hall & _).
  split; [vm_compute; reflexivity|].
  apply Hall. vm_compute. reflexivity.
Defined.

(** C7, as the spec has it, fails.  The project-generation command of the
    simulator exits with status 1: the build-and-install command is not
    run and the device is not built. *)
Lemma build_stops_at_failed_generation :
  result
    (_build (H:=Sim.host (Sim.generate_fails "SIMULATOR64"))
       Sim.release_builder "/out" "jansson" "jansson"
       JANSSON_EXTRA_CMAKE_FLAGS (Sim.start []))
  = Raise
      (CalledProcessError 1
         (get_cmake_xcode_generate_command
            (Sim.host (Sim.generate_fails "SIMULATOR64")) Sim.release_builder
            "SIMULATOR64" "/out/SIMULATOR64" "/src/avro/jansson"
            JANSSON_EXTRA_CMAKE_FLAGS))
  ∧ calls
      (log (_build (H:=Sim.host (Sim.generate_fails "SIMULATOR64"))
              Sim.release_builder "/out" "jansson" "jansson"
              JANSSON_EXTRA_CMAKE_FLAGS (Sim.start [])))
    = [Makedirs "/out";
       Makedirs "/out/jansson/build/SIMULATOR64";
       Putenv "PKG_CONFIG_PATH" "/out/SIMULATOR64/lib/pkgconfig";
       Spawn
         (get_cmake_xcode_generate_command
            (Sim.host (Sim.generate_fails "SIMULATOR64")) Sim.release_builder
            "SIMULATOR64" "/out/SIMULATOR64" "/src/avro/jansson"
            JANSSON_EXTRA_CMAKE_FLAGS)
         (Some "/out/jansson/build/SIMULATOR64")]%string.
Proof. vm_compute. split; reflexivity. Qed.


(** C3, as the spec has it, fails.  Nothing exists on the host, neither
    the install directory of the simulator nor its [lib]: when the archiver
    accepts an empty list of inputs the merge step of the platform returns
    as if nothing were missing, and the whole of [merge_libs] goes on to
    its undefined name; when the archiver refuses, the error is that of
    the failed command, not a file-not-found error. *)
Lemma merge_in_missing_directory_raises_no_file_not_found :
  isdir (Sim.host Sim.all_ok) [] "/out/SIMULATOR64" = false
  ∧ isdir (Sim.host Sim.all_ok) [] "/out/SIMULATOR64/lib" = false
  ∧ result
      (merge_libs_in_directory (H:=Sim.host Sim.all_ok) "/out/SIMULATOR64/lib"
         "/out/intermediate/avro_SIMULATOR64.a" (Sim.start []))
    = Ok tt
  ∧ result
      (merge_libs (H:=Sim.host Sim.all_ok) Sim.release_builder "/out" "avro"
         (Sim.start []))
    = Raise (NameError "final_lib_path")
  ∧ result
      (merge_libs_in_directory (H:=Sim.host (Sim.fails "libtool"))
         "/out/SIMULATOR64/lib" "/out/intermediate/avro_SIMULATOR64.a"
         (Sim.start []))
    = Raise
        (CalledProcessError 1
           ["libtool"; "-static"; "-o";
            "/out/intermediate/avro_SIMULATOR64.a"]%string)
  ∧ is_file_not_found
      (CalledProcessError 1
         ["libtool"; "-static"; "-o";
          "/out/intermediate/avro_SIMULATOR64.a"]%string)
    = false.
Proof. vm_compute. repeat split. Qed.

(** The same directory, missing, on a host whose archiver refuses. *)
Lemma merge_in_missing_directory_witness :
  ("/out/OS64/lib" <> "" ∧ has_magic "/out/OS64/lib" = false
   ∧ isdir (Sim.host (Sim.fails "libtool")) [] "/out/OS64/lib" = false)%string
  ∧ spawned
      (log (merge_libs_in_directory (H:=Sim.host (Sim.fails "libtool"))
              "/out/OS64/lib" "/out/intermediate/avro_OS64.a" (Sim.start [])))
    = [(["libtool"; "-static"; "-o"; "/out/intermediate/avro_OS64.a"]%string,
        None)]
  ∧ result
      (merge_libs_in_directory (H:=Sim.host (Sim.fails "libtool"))
         "/out/OS64/lib" "/out/intermediate/avro_OS64.a" (Sim.start []))
    = Raise
        (CalledProcessError 1
           ["libtool"; "-static"; "-o";
            "/out/intermediate/avro_OS64.a"]%string).
Proof.
  assert ("/out/OS64/lib" <> ""%string) as Hne by discriminate.
  destruct (merge_in_missing_directory (H:=Sim.host (Sim.fails "libtool"))
              (sim_glob_skips_missing_dirs (Sim.fails "libtool"))
              "/out/OS64/lib" "/out/intermediate/avro_OS64.a" (Sim.start [])
              Hne eq_refl eq_refl)
    as (Hcmd & _ & Hraise & _).
  split; [by repeat split|]. split; [exact Hcmd|].
  apply Hraise. vm_compute. discriminate.
Defined.

(** C2, where the code departs from it.  The builds succeed and the
    archiver exits with status 1: the script exits with status 1 and the
    stack trace is the last thing on the diagnostic stream, but no banner
    is printed.  When it is a build command that exits with status 1 the
    banner is there. *)
Theorem merge_failure_prints_no_banner :
  exit_status
    (run_script (H:=Sim.host (Sim.fails "libtool")) Sim.command_line
       (Sim.start Sim.built))
  = 1
  ∧ List.filter failed
      (trace (run_script (H:=Sim.host (Sim.fails "libtool")) Sim.command_line
                (Sim.start Sim.built)))
    = [Sys
         (Spawn
            ["libtool"; "-static"; "-o";
             "/out/intermediate/avro_SIMULATOR64.a";
             "/out/SIMULATOR64/lib/libavro.a";
             "/out/SIMULATOR64/lib/libjansson.a"]%string
            None)
         (Exited 1)]
  ∧ last
      (trace (run_script (H:=Sim.host (Sim.fails "libtool")) Sim.command_line
                (Sim.start Sim.built)))
    = Some
        (Output Stderr
           (TracebackOf
              (CalledProcessError 1
                 ["libtool"; "-static"; "-o";
                  "/out/intermediate/avro_SIMULATOR64.a";
                  "/out/SIMULATOR64/lib/libavro.a";
                  "/out/SIMULATOR64/lib/libjansson.a"]%string)))
  ∧ no_banner
      (trace (run_script (H:=Sim.host (Sim.fails "libtool")) Sim.command_line
                (Sim.start Sim.built)))
  ∧ (Line banner
     ∈ stderr_of
         (trace (run_script (H:=Sim.host (Sim.fails "cmake")) Sim.command_line
                   (Sim.start Sim.built)))).
Proof.
  split; [vm_compute; reflexivity|].
  split; [vm_compute; reflexivity|].
  split; [vm_compute; reflexivity|].
  split.
  - apply (bool_decide_eq_false_1 _). vm_compute. reflexivity.
  - apply (bool_decide_eq_true_1 _). vm_compute. reflexivity.
Qed.

(** [merge_libs] copies nothing, whatever the host answers: no run of it
    reaches [shutil.copytree]. *)
Lemma merge_libs_never_copies {H : Host} (self : Builder)
    (out_dir lib_name : string) (s : State H) (src dst : string) :
  Copytree src dst ∉ calls (log (merge_libs self out_dir lib_name s)).
Proof.
  destruct (merge_libs_cases self out_dir lib_name s)
    as (_ & _ & (libs1 & libs2 & k & Hplan) & _).
  intros Hin.
  assert (Copytree src dst ∈ merge_platform_plan H out_dir lib_name libs1 libs2)
    as Hplan' by (rewrite Hplan, elem_of_app; by left).
  unfold merge_platform_plan in Hplan'.
  rewrite !elem_of_cons, elem_of_nil in Hplan'.
  repeat destruct Hplan' as [Hplan'|Hplan']; done.
Qed.

(** C10, where the code departs from it.  Both platforms are installed
    with their headers and every tool succeeds: [merge_libs] creates the
    intermediate directory, merges the libraries of each platform and
    raises [NameError]; it copies no header from either platform and
    leaves no include directory in the framework. *)
Theorem merge_libs_copies_no_headers :
  isdir (Sim.host Sim.all_ok) Sim.built "/out/SIMULATOR64/include" = true
  ∧ result
      (merge_libs (H:=Sim.host Sim.all_ok) Sim.release_builder "/out" "avro"
         (Sim.start Sim.built))
    = Raise (NameError "final_lib_path")
  ∧ calls
      (log (merge_libs (H:=Sim.host Sim.all_ok) Sim.release_builder "/out"
              "avro" (Sim.start Sim.built)))
    = [Makedirs "/out/intermediate";
       Glob "/out/SIMULATOR64/lib/*.a";
       Spawn
         ["libtool"; "-static"; "-o"; "/out/intermediate/avro_SIMULATOR64.a";
          "/out/SIMULATOR64/lib/libavro.a";
          "/out/SIMULATOR64/lib/libjansson.a"]
         None;
       Glob "/out/OS64/lib/*.a";
       Spawn
         ["libtool"; "-static"; "-o"; "/out/intermediate/avro_OS64.a";
          "/out/OS64/lib/libavro.a"; "/out/OS64/lib/libjansson.a"]
         None]%string
  ∧ isdir (Sim.host Sim.all_ok)
      (fs (final (merge_libs (H:=Sim.host Sim.all_ok) Sim.release_builder
                    "/out" "avro" (Sim.start Sim.built))))
      "/out/avro.framework/include"
    = false.
Proof. vm_compute. repeat split. Qed.

(** * More of the script *)

(** ** Logs, strings *)

Lemma announced_app (l1 l2 : list Event) :
  announced l1 -> announced l2 -> announced (l1 ++ l2).
Proof.
  induction 1; intros Hl2; simpl; [done|..].
  - apply announced_output; auto.
  - apply announced_call; auto.
  - apply announced_command; auto.
Qed.

Lemma announced_failure_report (e : PyExc) : announced (failure_report e).
Proof.
  unfold failure_report. repeat apply announced_output. apply announced_nil.
Qed.

Lemma spawned_calls (l : list Event) (cmd : list string)
    (cwd : option string) :
  (cmd, cwd) ∈ spawned l <-> Spawn cmd cwd ∈ calls l.
Proof.
  induction l as [|[f t|c a] l IH]; simpl; [by rewrite !elem_of_nil|done|].
  destruct c as [name|key value|pathname|cmd' cwd'|src dst];
    rewrite !elem_of_cons, IH.
  4:{ split; (intros [[= -> ->]|Hin]; [by left|by right]). }
  all: split; [by right|by intros [[=]|Hin]].
Qed.

Lemma stops_at_failure_app_ok (l1 l2 : list Event) :
  existsb failed l1 = false ->
  stops_at_failure (l1 ++ l2) = stops_at_failure l2.
Proof.
  induction l1 as [|ev l1 IH]; simpl; [done|].
  intros [Hev Hl1]%orb_false_iff. rewrite Hev. by apply IH.
Qed.

Lemma stops_at_failure_app_quiet (l1 l2 : list Event) :
  stops_at_failure l1 = true -> calls l2 = [] ->
  stops_at_failure (l1 ++ l2) = true.
Proof.
  intros Hl1 Hcalls. induction l1 as [|ev l1 IH]; simpl in *.
  - induction l2 as [|[f t|c a] l2 IH]; simpl in *; [done|by apply IH|done].
  - destruct (failed ev); [|by apply IH].
    apply bool_decide_eq_true in Hl1. apply bool_decide_eq_true.
    by rewrite calls_app, Hl1, Hcalls.
Qed.

Lemma string_app_assoc (a b c : string) : (a +:+ b) +:+ c = a +:+ (b +:+ c).
Proof.
  induction a as [|ch a IH]; [reflexivity|].
  change (String ch ((a +:+ b) +:+ c) = String ch (a +:+ (b +:+ c))).
  by rewrite IH.
Qed.

Lemma endswith_sep_app (x y : string) :
  y <> ""%string -> os_path.endswith_sep (x +:+ y) = os_path.endswith_sep y.
Proof.
  intros Hy. induction x as [|ch x IH]; [reflexivity|].
  change (String ch x +:+ y) with (String ch (x +:+ y)).
  destruct (x +:+ y) as [|ch' rest] eqn:Happ.
  - by destruct x.
  - exact IH.
Qed.

(** ** Every run, by the answers of the host *)

Section MergeRuns.

Context {H : Host}.

(** More of every run of [merge_libs]: its commands are announced, it
    stops at the first call that fails, and
    when none of its calls fails it has made every call of the
    per-platform merge, each archiver with what the glob before it
    matched. *)
Lemma merge_libs_more_cases (self : Builder) (out_dir lib_name : string)
    (s : State H) :
  let o := merge_libs self out_dir lib_name s in
  let lib_dir platform :=
    os_path.join (os_path.join (abspath H out_dir) [platform])
      ["lib"%string] in
  announced (log o)
  ∧ stops_at_failure (log o) = true
  ∧ (existsb failed (log o) = false ->
     exists libs1 libs2,
       calls (log o) = merge_platform_plan H out_dir lib_name libs1 libs2
       ∧ Sys (Glob (os_path.join (lib_dir "SIMULATOR64"%string) ["*.a"%string]))
           (Matched libs1) ∈ log o
       ∧ Sys (Glob (os_path.join (lib_dir "OS64"%string) ["*.a"%string]))
           (Matched libs2) ∈ log o).
Proof.
  intros o lib_dir. subst o lib_dir.
  unfold merge_libs, merge_libs_in_directory, for_in, get_platforms,
    merge_platform_plan, platform_install_dir, platform_lib_file.
  rewrite (load_global_unbound "final_lib_path")
    by apply (final_lib_path_unbound (H:=H)).
  unfold_calls.
  repeat (cbv beta iota zeta; rewrite ?execute_run; decide_statuses;
          try host_step).
  all: cbn; decide_statuses; cbn.
  all: (split; [announce|]).
  all: (split; [reflexivity|]).
  all: try (intros [=]; fail).
  intros _. eexists _, _. split; [reflexivity|].
  split; rewrite !elem_of_cons; auto 10.
Qed.

End MergeRuns.

Section WholeRuns.

Context {H : Host}.

(** Every run of the script is one of three: the first build fails and is
    reported, the second build fails and is reported, or both builds
    return and [merge_libs] raises an exception that nobody catches. *)
Lemma script_trace_cases (args : Namespace) (s : State H) :
  let b :=
    Build_Builder (ns_configuration args) (ns_bitcode_enabled args)
      (ns_deployment_target args) in
  let u1 :=
    _build b (ns_out_dir args) "jansson" "jansson" JANSSON_EXTRA_CMAKE_FLAGS
      s in
  let u2 :=
    _build b (ns_out_dir args) (os_path.join "lang" ["c"%string]) "avro" []
      (final u1) in
  let o3 := merge_libs b (ns_out_dir args) "avro" (final u2) in
  let p := run_script args s in
  (exists e,
     result u1 = Raise e ∧ is_Exception e = true
     ∧ trace p = log u1 ++ failure_report e
     ∧ left_state p = final u1)
  ∨ (result u1 = Ok tt
     ∧ exists e,
         result u2 = Raise e ∧ is_Exception e = true
         ∧ trace p = log u1 ++ log u2 ++ failure_report e
         ∧ left_state p = final u2)
  ∨ (result u1 = Ok tt ∧ result u2 = Ok tt
     ∧ exists e,
         result o3 = Raise e ∧ is_Exception e = true
         ∧ trace p
           = log u1 ++ log u2 ++ log o3 ++ [Output Stderr (TracebackOf e)]
         ∧ left_state p = final o3).
Proof.
  intros b u1 u2 o3 p. subst p.
  unfold run_script, main_block. fold b.
  rewrite bind_run, build_run. cbv zeta.
  change (default [] (Some JANSSON_EXTRA_CMAKE_FLAGS))
    with JANSSON_EXTRA_CMAKE_FLAGS.
  fold u1.
  destruct (build_respects b (ns_out_dir args) "jansson" "jansson"
              JANSSON_EXTRA_CMAKE_FLAGS s) as (_ & _ & Hexc1).
  fold u1 in Hexc1.
  destruct (result u1) as [[]|e1]; cbn [result final log].
  2:{ left. exists e1. by rewrite (Hexc1 e1). }
  right. rewrite bind_run, build_run. cbv zeta.
  change (default [] None) with (@nil string). fold u2.
  destruct (build_respects b (ns_out_dir args)
              (os_path.join "lang" ["c"%string]) "avro" [] (final u1))
    as (_ & _ & Hexc2).
  fold u2 in Hexc2.
  destruct (result u2) as [[]|e2]; cbn [result final log].
  2:{ left. split; [done|]. exists e2. by rewrite (Hexc2 e2). }
  right. split; [done|]. split; [done|].
  destruct (merge_libs_raises b (ns_out_dir args) "avro" (final u2))
    as (e & He & Hexc).
  fold o3 in He |- *. exists e. split; [done|]. split; [done|].
  rewrite He.
  destruct e; try done; cbn [trace left_state]; by rewrite <- !app_assoc.
Qed.

(** A property of calls that holds of the plan of each build and of the
    plan of the merge holds of every call of the script. *)
Lemma script_calls_planned (P : Syscall -> Prop) (args : Namespace)
    (s : State H) :
  let b :=
    Build_Builder (ns_configuration args) (ns_bitcode_enabled args)
      (ns_deployment_target args) in
  Forall P
    (build_plan H b (ns_out_dir args) "jansson" "jansson"
       JANSSON_EXTRA_CMAKE_FLAGS) ->
  Forall P
    (build_plan H b (ns_out_dir args) (os_path.join "lang" ["c"%string])
       "avro" []) ->
  (forall libs1 libs2,
     Forall P (merge_platform_plan H (ns_out_dir args) "avro" libs1 libs2)) ->
  Forall P (calls (trace (run_script args s))).
Proof.
  intros b Hp1 Hp2 Hp3.
  assert (forall (l plan : list Syscall),
            l `prefix_of` plan -> Forall P plan -> Forall P l) as Hpre.
  { intros l plan [k ->] [Hl _]%Forall_app. exact Hl. }
  pose proof (script_trace_cases args s) as Hcases. cbv zeta in Hcases.
  fold b in Hcases.
  set (u1 := _build b _ "jansson" "jansson" _ s) in *.
  set (u2 := _build b _ _ "avro" _ (final u1)) in *.
  set (o3 := merge_libs b _ _ (final u2)) in *.
  assert (Forall P (calls (log u1))) as H1.
  { eapply Hpre; [|exact Hp1]. apply build_follows_plan. }
  assert (Forall P (calls (log u2))) as H2.
  { eapply Hpre; [|exact Hp2]. apply build_follows_plan. }
  assert (Forall P (calls (log o3))) as H3.
  { destruct (merge_libs_cases b (ns_out_dir args) "avro" (final u2))
      as (_ & _ & (libs1 & libs2 & Hplan) & _).
    eapply Hpre; [exact Hplan|apply Hp3]. }
  destruct Hcases as [(e & _ & _ & -> & _)
                     |[(_ & e & _ & _ & -> & _)
                      |(_ & _ & e & _ & _ & -> & _)]];
    rewrite !calls_app; cbn; rewrite ?app_nil_r;
    repeat apply Forall_app_2; done.
Qed.

End WholeRuns.

(** ** Properties of every run *)

Section EveryRun.

Context {H : Host}.

(** X1. No run of the script succeeds, whatever the command line and
    whatever the host answers: the exit status is 1, and the last thing on
    the diagnostic stream is the stack trace of an exception. *)
Theorem script_never_succeeds (args : Namespace) (s : State H) :
  let p := run_script args s in
  exit_status p = 1
  ∧ exists e,
      is_Exception e = true
      ∧ last (trace p) = Some (Output Stderr (TracebackOf e)).
Proof.
  intros p. subst p. split; [apply run_script_exit_status|].
  destruct (script_trace_cases args s)
    as [(e & _ & He & -> & _)
       |[(_ & e & _ & He & -> & _)|(_ & _ & e & _ & He & -> & _)]];
    exists e; (split; [exact He|]); rewrite !last_app; reflexivity.
Qed.

(** X2. A build that fails ends the script.  When the build of jansson
    raises, the run consists of what that build did and the report of
    [build]: the banner, the error, the banner and the stack trace on the
    diagnostic stream.  When it returns and the build of avro raises, the
    run consists of the two builds and the report.  In both cases nothing
    of the merge step is run, and the exit status is 1. *)
Theorem failed_build_ends_the_script (args : Namespace) (s : State H)
    (e : PyExc) :
  let b :=
    Build_Builder (ns_configuration args) (ns_bitcode_enabled args)
      (ns_deployment_target args) in
  let u1 :=
    _build b (ns_out_dir args) "jansson" "jansson" JANSSON_EXTRA_CMAKE_FLAGS
      s in
  let u2 :=
    _build b (ns_out_dir args) (os_path.join "lang" ["c"%string]) "avro" []
      (final u1) in
  let p := run_script args s in
  (result u1 = Raise e ->
   exit_status p = 1
   ∧ trace p = log u1 ++ failure_report e
   ∧ calls (trace p) = calls (log u1)
   ∧ left_state p = final u1)
  ∧ (result u1 = Ok tt -> result u2 = Raise e ->
     exit_status p = 1
     ∧ trace p = log u1 ++ log u2 ++ failure_report e
     ∧ calls (trace p) = calls (log u1) ++ calls (log u2)
     ∧ left_state p = final u2).
Proof.
  intros b u1 u2 p.
  pose proof (run_script_exit_status args s) as Hexit.
  pose proof (script_trace_cases args s) as Hcases. cbv zeta in Hcases.
  fold b u1 u2 p in Hcases, Hexit.
  split.
  - intros H1. rewrite H1 in Hcases.
    destruct Hcases as [(e' & [= <-] & _ & Ht & Hs)|[(? & _)|(? & _)]];
      [|done..].
    rewrite Ht, calls_app. cbn. by rewrite app_nil_r.
  - intros H1 H2. rewrite H1, H2 in Hcases.
    destruct Hcases as [(? & ? & _)|[(_ & e' & [= <-] & _ & Ht & Hs)
                                    |(_ & ? & _)]]; [done| |done].
    rewrite Ht, !calls_app. cbn. by rewrite app_nil_r.
Qed.

(** X4. The only tools the script ever runs are [cmake] and [libtool],
    whatever the command line and whatever the host answers: no run comes
    to the universal-binary tool, and no run copies a tree. *)
Theorem script_runs_only_cmake_and_libtool (args : Namespace) (s : State H) :
  let p := run_script args s in
  Forall (fun c => is_cmake_or_libtool c = true) (calls (trace p))
  ∧ (forall cmd cwd,
       (cmd, cwd) ∈ spawned (trace p) ->
       head cmd = Some "cmake"%string ∨ head cmd = Some "libtool"%string)
  ∧ (forall cmd cwd,
       (cmd, cwd) ∈ spawned (trace p) -> head cmd <> Some "lipo"%string)
  ∧ (forall src dst, Copytree src dst ∉ calls (trace p)).
Proof.
  intros p. subst p.
  assert (Forall (fun c => is_cmake_or_libtool c = true)
            (calls (trace (run_script args s)))) as Hall.
  { apply script_calls_planned.
    - unfold build_plan, platform_build_plan. repeat constructor.
    - unfold build_plan, platform_build_plan. repeat constructor.
    - intros libs1 libs2. unfold merge_platform_plan. repeat constructor. }
  split; [exact Hall|].
  rewrite Forall_forall in Hall.
  assert (forall cmd cwd,
            (cmd, cwd) ∈ spawned (trace (run_script args s)) ->
            head cmd = Some "cmake"%string ∨ head cmd = Some "libtool"%string)
    as Htools.
  { intros cmd cwd Hin%spawned_calls%Hall. cbn in Hin.
    apply orb_true_iff in Hin as [Hc|Hc]; apply bool_decide_eq_true in Hc;
      auto. }
  split; [exact Htools|]. split.
  - intros cmd cwd [Hc|Hc]%Htools; rewrite Hc; discriminate.
  - intros src dst Hin%Hall. discriminate Hin.
Qed.

(** X5. What the command line says reaches every [cmake] command of the
    run: each project-generation command carries [-DDEPLOYMENT_TARGET=]
    with the given target, [13.0] when the option is left out, and
    [-DENABLE_BITCODE=ON] exactly when [--enable-bitcode] is given; each
    other [cmake] command is the build-and-install command with the
    chosen configuration after [--config]. *)
Theorem command_line_reaches_cmake (out_dir : string)
    (configuration : ConfigurationChoice) (enable_bitcode : bool)
    (deployment_target : option string) (s : State H) :
  let args := parse_args out_dir configuration enable_bitcode
                deployment_target in
  Forall (cmake_as_asked configuration enable_bitcode deployment_target)
    (calls (trace (run_script args s))).
Proof.
  intros args. subst args.
  apply script_calls_planned.
  - unfold build_plan, platform_build_plan, get_cmake_xcode_generate_command.
    each_call; cbn; try done; intros _.
    all: try (left; destruct enable_bitcode, deployment_target;
              by repeat split).
    all: right; by destruct configuration.
  - unfold build_plan, platform_build_plan, get_cmake_xcode_generate_command.
    each_call; cbn; try done; intros _.
    all: try (left; destruct enable_bitcode, deployment_target;
              by repeat split).
    all: right; by destruct configuration.
  - intros libs1 libs2. unfold merge_platform_plan.
    each_call; cbn; try done; by intros [=].
Qed.

(** X6. Every command of every run is announced: the line with the
    command and its working directory on the diagnostic stream and the
    line [Executing: ] with the arguments joined by spaces on the standard
    output come immediately before the command is started. *)
Theorem commands_are_announced (args : Namespace) (s : State H) :
  announced (trace (run_script args s)).
Proof.
  pose proof (script_trace_cases args s) as Hcases. cbv zeta in Hcases.
  set (b := Build_Builder _ _ _) in *.
  set (u1 := _build b _ "jansson" "jansson" _ s) in *.
  set (u2 := _build b _ _ "avro" _ (final u1)) in *.
  set (o3 := merge_libs b _ _ (final u2)) in *.
  assert (announced (log u1)) as H1 by apply build_cases.
  assert (announced (log u2)) as H2 by apply build_cases.
  assert (announced (log o3)) as H3 by apply merge_libs_more_cases.
  destruct Hcases as [(e & _ & _ & -> & _)
                     |[(_ & e & _ & _ & -> & _)
                      |(_ & _ & e & _ & _ & -> & _)]];
    repeat apply announced_app; try done;
    try apply announced_failure_report.
  apply announced_output, announced_nil.
Qed.

(** X7. A build that returns leaves [PKG_CONFIG_PATH] set in the
    environment of the script, to [lib/pkgconfig] under the install
    directory of the device, the platform built last; every other
    variable is as it was. *)
Theorem successful_build_leaves_pkg_config_path (self : Builder)
    (out_dir root_dir lib_name : string) (flags : list string)
    (s : State H) :
  let o := _build self out_dir root_dir lib_name flags s in
  result o = Ok tt ->
  environ (final o)
  = <["PKG_CONFIG_PATH"%string :=
        os_path.join (os_path.join (abspath H out_dir) ["OS64"%string])
          ["lib"; "pkgconfig"]%string]> (environ s).
Proof. intros o. apply build_cases. Qed.

(** X9. The merge step of a platform stands and falls with the archiver:
    it returns exactly when the archiver exits with status 0 and
    otherwise raises the [CalledProcessError] of that command with its
    status; it leaves the environment alone, and the libraries it is
    about to merge are on the diagnostic stream before the command. *)
Theorem merge_libs_in_directory_outcome
    (directory_path out_lib_file_path : string) (s : State H) :
  let libs := glob H (os_path.join directory_path ["*.a"%string]) (fs s) in
  let cmd := ["libtool"; "-static"; "-o"; out_lib_file_path]%string ++ libs in
  let status := (spawn H cmd None (environ s) (fs s)).1 in
  let o := merge_libs_in_directory directory_path out_lib_file_path s in
  (result o = Ok tt <-> status = 0)
  ∧ (forall e,
       result o = Raise e -> e = CalledProcessError status cmd ∧ status <> 0)
  ∧ environ (final o) = environ s
  ∧ stderr_of (log o)
    = [Line ("Merging libraries:" +:+ nl_tab +:+ String.concat nl_tab libs);
       ExecutingIn cmd None].
Proof.
  intros libs cmd status o. subst libs cmd status o.
  unfold merge_libs_in_directory.
  repeat (rewrite bind_run; cbn). rewrite execute_run.
  destruct (spawn H _ None _ _) as [rc fs']. cbn.
  destruct (decide (rc = 0)) as [Hrc|Hrc].
  - rewrite !(bool_decide_eq_true_2 _ Hrc). by repeat split.
  - rewrite !(bool_decide_eq_false_2 _ Hrc).
    split; [done|]. split; [by intros e [= <-]|done].
Qed.

(** X10. The universal-binary step, for whatever the glob of the
    directory matches: it runs one command, the tool with [-create], the
    matches in the order of the glob, then [-o] and the output path, also
    when nothing matches; it returns exactly when the tool exits with
    status 0 and otherwise raises the [CalledProcessError] of that
    command. *)
Theorem create_universal_static_lib_outcome
    (directory_path out_lib_file_path : string) (s : State H) :
  let libs := glob H (os_path.join directory_path ["*.a"%string]) (fs s) in
  let cmd :=
    ["lipo"; "-create"]%string ++ libs ++ ["-o"%string; out_lib_file_path] in
  let status := (spawn H cmd None (environ s) (fs s)).1 in
  let o := create_universal_static_lib directory_path out_lib_file_path s in
  calls (log o)
  = [Glob (os_path.join directory_path ["*.a"%string]); Spawn cmd None]
  ∧ (libs = [] -> cmd = ["lipo"; "-create"; "-o"; out_lib_file_path]%string)
  ∧ (result o = Ok tt <-> status = 0)
  ∧ (forall e,
       result o = Raise e -> e = CalledProcessError status cmd ∧ status <> 0)
  ∧ environ (final o) = environ s.
Proof.
  intros libs cmd status o. subst libs cmd status o.
  unfold create_universal_static_lib.
  repeat (rewrite bind_run; cbn). rewrite execute_run.
  cbn.
  destruct (spawn H _ None _ _) as [rc fs']. cbn.
  split; [done|]. split; [by intros ->|].
  destruct (decide (rc = 0)) as [Hrc|Hrc].
  - rewrite !(bool_decide_eq_true_2 _ Hrc). by repeat split.
  - rewrite !(bool_decide_eq_false_2 _ Hrc).
    split; [done|]. split; [by intros e [= <-]|done].
Qed.

(** X11. The source directory [cmake] is given: a relative [root_dir] is
    resolved against the directory of the script, not against the working
    directory, and an absolute one is passed on as it is.  This holds of
    every project-generation command of a build. *)
Theorem build_source_directory (self : Builder)
    (out_dir root_dir lib_name : string) (flags : list string)
    (s : State H) :
  let script_dir := abspath H (os_path.dirname (script_file H)) in
  let source :=
    if os_path.startswith_sep root_dir then root_dir
    else os_path.join script_dir [root_dir] in
  Forall
    (fun c =>
       match c with
       | Spawn cmd _ =>
           cmd !! 2%nat = Some "-GXcode"%string -> cmd !! 1%nat = Some source
       | _ => True
       end)
    (calls (log (_build self out_dir root_dir lib_name flags s))).
Proof.
  intros script_dir source.
  assert (get_path_relative_to_script H [root_dir] = source) as Hsource.
  { subst source script_dir.
    unfold get_path_relative_to_script, os_path.join. simpl.
    unfold os_path.join2. by destruct (os_path.startswith_sep root_dir). }
  destruct (build_follows_plan self out_dir root_dir lib_name flags s)
    as ([k Hplan] & _).
  assert (Forall
            (fun c =>
               match c with
               | Spawn cmd _ =>
                   cmd !! 2%nat = Some "-GXcode"%string ->
                   cmd !! 1%nat = Some source
               | _ => True
               end)
            (build_plan H self out_dir root_dir lib_name flags)) as Hall.
  { unfold build_plan, platform_build_plan, get_cmake_xcode_generate_command.
    rewrite Hsource. each_call; cbn; try done; by intros [=]. }
  rewrite Hplan in Hall. by apply Forall_app in Hall as [? _].
Qed.

(** X12. [build] turns every exception of [_build] into an exit: it
    returns exactly when [_build] returns, with the same log; when
    [_build] raises, whatever the exception, it prints the banner, the
    error, the banner and the stack trace after what [_build] did and
    raises [SystemExit] with code 1, and nothing else ever leaves it.  The
    state is the one [_build] left; flags that are not given are no
    flags. *)
Theorem build_exits_on_any_exception (self : Builder)
    (out_dir root_dir lib_name : string) (flags : option (list string))
    (s : State H) :
  let u :=
    _build self out_dir root_dir lib_name
      (match flags with Some given => given | None => [] end) s in
  let o := build self out_dir root_dir lib_name flags s in
  final o = final u
  ∧ (result o = Ok tt <-> result u = Ok tt)
  ∧ (result u = Ok tt -> log o = log u)
  ∧ (forall e,
       result u = Raise e ->
       result o = Raise (SystemExit 1) ∧ log o = log u ++ failure_report e)
  ∧ (forall e, result o = Raise e -> e = SystemExit 1).
Proof.
  intros u o. subst o. rewrite build_run. cbv zeta.
  change (default [] flags)
    with (match flags with Some given => given | None => [] end).
  fold u.
  destruct (result u) as [[]|e]; cbn [result final log].
  - repeat split; try done; by intros [=].
  - split; [done|]. split; [by split; intros [=]|].
    split; [by intros [=]|].
    split; by intros e' [= <-].
Qed.

(** X13. The merging is done before the script fails.  When no call of
    [merge_libs] fails, and so when it raises [NameError] for
    [final_lib_path], it has created the intermediate directory and run
    the archiver for the simulator and for the device, in this order,
    each on what the glob of the [lib] directory of the platform
    matched. *)
Theorem merge_libs_merges_before_failing (self : Builder)
    (out_dir lib_name : string) (s : State H) :
  let o := merge_libs self out_dir lib_name s in
  let lib_dir platform :=
    os_path.join (os_path.join (abspath H out_dir) [platform])
      ["lib"%string] in
  result o = Raise (NameError "final_lib_path") ->
  exists libs1 libs2,
    calls (log o) = merge_platform_plan H out_dir lib_name libs1 libs2
    ∧ Sys (Glob (os_path.join (lib_dir "SIMULATOR64"%string) ["*.a"%string]))
        (Matched libs1) ∈ log o
    ∧ Sys (Glob (os_path.join (lib_dir "OS64"%string) ["*.a"%string]))
        (Matched libs2) ∈ log o.
Proof.
  intros o lib_dir Hname.
  destruct (merge_libs_cases self out_dir lib_name s) as (_ & Hiff & _).
  destruct (merge_libs_more_cases self out_dir lib_name s)
    as (_ & _ & Hplan).
  apply Hplan, Hiff, Hname.
Qed.

End EveryRun.

(** X8. The archives of the platforms in the intermediate directory are
    different files, whatever the directory and the name of the library:
    the merge of the device does not overwrite that of the simulator. *)
Theorem platform_archives_are_distinct (directory lib_name : string) :
  NoDup
    (map
       (fun platform =>
          os_path.join directory [platform_lib_file lib_name platform])
       get_platforms).
Proof.
  assert (forall platform : string,
            os_path.startswith_sep (platform_lib_file lib_name platform)
            = os_path.startswith_sep (lib_name +:+ "_")) as Hstart.
  { intros platform. unfold platform_lib_file. by destruct lib_name. }
  assert (os_path.join directory [platform_lib_file lib_name "SIMULATOR64"]
          <> os_path.join directory [platform_lib_file lib_name "OS64"])
    as Hne.
  { unfold os_path.join. simpl. unfold os_path.join2.
    rewrite !Hstart.
    assert (platform_lib_file lib_name "SIMULATOR64"
            <> platform_lib_file lib_name "OS64") as Hfile.
    { unfold platform_lib_file. intros Heq.
      by apply (inj (String.app lib_name)) in Heq. }
    destruct (os_path.startswith_sep (lib_name +:+ "_")); [done|].
    destruct (bool_decide (directory = "") || os_path.endswith_sep directory);
      intros Heq; apply (inj (String.app directory)) in Heq;
      [done|]. by apply (inj (String.app "/")) in Heq. }
  unfold get_platforms. simpl.
  apply NoDup_cons. split; [by rewrite list_elem_of_singleton|].
  apply NoDup_singleton.
Qed.

Section Pipeline.

Context {H : Host}.

(** X14. The calls of every run of the script are, in this order, an
    initial segment of one pipeline: the plan of the build of jansson,
    the plan of the build of avro, then the intermediate directory and
    the glob and the archiver of each platform.  The builds are never
    interleaved and nothing is merged before both are done. *)
Theorem script_follows_pipeline (args : Namespace) (s : State H) :
  let b :=
    Build_Builder (ns_configuration args) (ns_bitcode_enabled args)
      (ns_deployment_target args) in
  exists libs1 libs2,
    calls (trace (run_script args s))
      `prefix_of`
      build_plan H b (ns_out_dir args) "jansson" "jansson"
        JANSSON_EXTRA_CMAKE_FLAGS
      ++ build_plan H b (ns_out_dir args) (os_path.join "lang" ["c"%string])
           "avro" []
      ++ merge_platform_plan H (ns_out_dir args) "avro" libs1 libs2.
Proof.
  intros b.
  pose proof (script_trace_cases args s) as Hcases. cbv zeta in Hcases.
  fold b in Hcases.
  set (u1 := _build b _ "jansson" "jansson" _ s) in *.
  set (u2 := _build b _ _ "avro" _ (final u1)) in *.
  set (o3 := merge_libs b _ _ (final u2)) in *.
  destruct (build_follows_plan b (ns_out_dir args) "jansson" "jansson"
              JANSSON_EXTRA_CMAKE_FLAGS s) as (Hpre1 & Hall1 & _).
  destruct (build_follows_plan b (ns_out_dir args)
              (os_path.join "lang" ["c"%string]) "avro" [] (final u1))
    as (Hpre2 & Hall2 & _).
  destruct (merge_libs_cases b (ns_out_dir args) "avro" (final u2))
    as (_ & _ & (libs1 & libs2 & Hpre3) & _).
  fold u1 in Hpre1, Hall1. fold u2 in Hpre2, Hall2. fold o3 in Hpre3.
  exists libs1, libs2.
  destruct Hcases as [(e & _ & _ & -> & _)
                     |[(Hok1 & e & _ & _ & -> & _)
                      |(Hok1 & Hok2 & e & _ & _ & -> & _)]];
    rewrite !calls_app; cbn [calls failure_report]; rewrite app_nil_r.
  - by apply prefix_app_r.
  - rewrite (Hall1 Hok1). by apply prefix_app, prefix_app_r.
  - rewrite (Hall1 Hok1), (Hall2 Hok2). by do 2 apply prefix_app.
Qed.

(** X16. Every run of the script stops at the first call that fails: after
    a directory that could not be created or a command that exited with a
    status other than 0, the script prints its report and makes no other
    call. *)
Theorem script_stops_at_first_failure (args : Namespace) (s : State H) :
  stops_at_failure (trace (run_script args s)) = true.
Proof.
  pose proof (script_trace_cases args s) as Hcases. cbv zeta in Hcases.
  set (b := Build_Builder _ _ _) in *.
  set (u1 := _build b _ "jansson" "jansson" _ s) in *.
  set (u2 := _build b _ _ "avro" _ (final u1)) in *.
  set (o3 := merge_libs b _ _ (final u2)) in *.
  destruct (build_follows_plan b (ns_out_dir args) "jansson" "jansson"
              JANSSON_EXTRA_CMAKE_FLAGS s) as (_ & _ & Hok1).
  destruct (build_follows_plan b (ns_out_dir args)
              (os_path.join "lang" ["c"%string]) "avro" [] (final u1))
    as (_ & _ & Hok2).
  fold u1 in Hok1. fold u2 in Hok2.
  assert (stops_at_failure (log u1) = true) as H1 by apply build_cases.
  assert (stops_at_failure (log u2) = true) as H2 by apply build_cases.
  assert (stops_at_failure (log o3) = true) as H3
    by apply merge_libs_more_cases.
  destruct Hcases as [(e & _ & _ & -> & _)
                     |[(Hr1 & e & _ & _ & -> & _)
                      |(Hr1 & Hr2 & e & _ & _ & -> & _)]].
  - by apply stops_at_failure_app_quiet.
  - rewrite stops_at_failure_app_ok by by apply Hok1.
    by apply stops_at_failure_app_quiet.
  - rewrite stops_at_failure_app_ok by by apply Hok1.
    rewrite stops_at_failure_app_ok by by apply Hok2.
    by apply stops_at_failure_app_quiet.
Qed.

End Pipeline.

(** X15. Where the toolchain file is looked for: in [ios-cmake] under the
    directory of the script, with one separator at each joint and none
    added to a directory that ends in one; every project-generation
    command names this file in its fourth argument, whatever the builder,
    the platform and the directories. *)
Theorem toolchain_file_location (H : Host) (self : Builder)
    (platform install_dir root_dir : string) (extra_flags : list string) :
  let script_dir := abspath H (os_path.dirname (script_file H)) in
  let under_script_dir :=
    if bool_decide (script_dir = ""%string) || os_path.endswith_sep script_dir
    then script_dir
    else script_dir +:+ "/" in
  get_toolchain H = under_script_dir +:+ "ios-cmake/ios.toolchain.cmake"
  ∧ get_cmake_xcode_generate_command H self platform install_dir root_dir
      extra_flags !! 3%nat
    = Some ("-DCMAKE_TOOLCHAIN_FILE=" +:+ under_script_dir
            +:+ "ios-cmake/ios.toolchain.cmake").
Proof.
  intros script_dir under_script_dir.
  assert (get_toolchain H
          = under_script_dir +:+ "ios-cmake/ios.toolchain.cmake") as Htool.
  { unfold get_toolchain, get_path_relative_to_script, os_path.join.
    fold script_dir. simpl.
    assert (os_path.join2 script_dir "ios-cmake"
            = under_script_dir +:+ "ios-cmake") as ->.
    { subst under_script_dir. unfold os_path.join2. simpl.
      destruct (bool_decide (script_dir = "")
                || os_path.endswith_sep script_dir); [done|].
      by rewrite string_app_assoc. }
    unfold os_path.join2. simpl.
    rewrite endswith_sep_app by done. simpl.
    rewrite bool_decide_eq_false_2; [by rewrite !string_app_assoc|].
    by destruct under_script_dir. }
  split; [exact Htool|].
  unfold get_cmake_xcode_generate_command. rewrite Htool. reflexivity.
Qed.

(** ** More runs on the simulated host *)

(** Two runs on an empty file system: in the first every [cmake] command
    exits with 1, so that the build of jansson fails at once; in the
    second the commands on the sources of avro do, so that the build of
    jansson returns and the build of avro fails. *)
Lemma failed_build_ends_the_script_witness :
  calls
    (trace (run_script (H:=Sim.host (Sim.fails "cmake")) Sim.command_line
              (Sim.start [])))
  = calls
      (log (_build (H:=Sim.host (Sim.fails "cmake")) Sim.release_builder
              "/out" "jansson" "jansson" JANSSON_EXTRA_CMAKE_FLAGS
              (Sim.start [])))
  ∧ calls
      (trace (run_script (H:=Sim.host (Sim.source_fails "/src/avro/lang/c"))
                Sim.command_line (Sim.start [])))
    = calls
        (log (_build (H:=Sim.host (Sim.source_fails "/src/avro/lang/c"))
                Sim.release_builder "/out" "jansson" "jansson"
                JANSSON_EXTRA_CMAKE_FLAGS (Sim.start [])))
      ++ calls
           (log (_build (H:=Sim.host (Sim.source_fails "/src/avro/lang/c"))
                   Sim.release_builder "/out" "lang/c" "avro" []
                   (final
                      (_build
                         (H:=Sim.host (Sim.source_fails "/src/avro/lang/c"))
                         Sim.release_builder "/out" "jansson" "jansson"
                         JANSSON_EXTRA_CMAKE_FLAGS (Sim.start []))))).
Proof.
  split.
  - destruct (failed_build_ends_the_script (H:=Sim.host (Sim.fails "cmake"))
                Sim.command_line (Sim.start [])
                (CalledProcessError 1
                   (get_cmake_xcode_generate_command
                      (Sim.host (Sim.fails "cmake")) Sim.release_builder
                      "SIMULATOR64" "/out/SIMULATOR64" "/src/avro/jansson"
                      JANSSON_EXTRA_CMAKE_FLAGS)))
      as [Hfirst _].
    apply Hfirst. vm_compute. reflexivity.
  - destruct (failed_build_ends_the_script
                (H:=Sim.host (Sim.source_fails "/src/avro/lang/c"))
                Sim.command_line (Sim.start [])
                (CalledProcessError 1
                   (get_cmake_xcode_generate_command
                      (Sim.host (Sim.source_fails "/src/avro/lang/c"))
                      Sim.release_builder "SIMULATOR64" "/out/SIMULATOR64"
                      "/src/avro/lang/c" [])))
      as [_ Hsecond].
    apply Hsecond; vm_compute; reflexivity.
Defined.

(** Both platforms are installed and only the archiver exits with 1. *)
Lemma merge_failure_is_not_reported_witness :
  result
    (build (H:=Sim.host (Sim.fails "libtool")) Sim.release_builder "/out"
       "jansson" "jansson" (Some JANSSON_EXTRA_CMAKE_FLAGS)
       (Sim.start Sim.built))
  = Ok tt
  ∧ no_banner
      (trace (run_script (H:=Sim.host (Sim.fails "libtool")) Sim.command_line
                (Sim.start Sim.built))).
Proof.
  assert (result
            (build (H:=Sim.host (Sim.fails "libtool")) Sim.release_builder
               "/out" "jansson" "jansson" (Some JANSSON_EXTRA_CMAKE_FLAGS)
               (Sim.start Sim.built))
          = Ok tt) as Hfirst by (vm_compute; reflexivity).
  split; [exact Hfirst|].
  destruct (merge_failure_is_not_reported (H:=Sim.host (Sim.fails "libtool"))
              Sim.command_line (Sim.start Sim.built) Hfirst)
    as (e & _ & _ & _ & Hnb); [vm_compute; reflexivity|].
  exact Hnb.
Defined.

(** A build in which every call succeeds, started with an empty
    environment. *)
Lemma successful_build_leaves_pkg_config_path_witness :
  result
    (_build (H:=Sim.host Sim.all_ok) Sim.release_builder "/out" "jansson"
       "jansson" JANSSON_EXTRA_CMAKE_FLAGS (Sim.start []))
  = Ok tt
  ∧ environ
      (final
         (_build (H:=Sim.host Sim.all_ok) Sim.release_builder "/out" "jansson"
            "jansson" JANSSON_EXTRA_CMAKE_FLAGS (Sim.start [])))
    = <["PKG_CONFIG_PATH"%string := "/out/OS64/lib/pkgconfig"%string]> ∅.
Proof.
  assert (result
            (_build (H:=Sim.host Sim.all_ok) Sim.release_builder "/out"
               "jansson" "jansson" JANSSON_EXTRA_CMAKE_FLAGS (Sim.start []))
          = Ok tt) as Hok by (vm_compute; reflexivity).
  split; [exact Hok|].
  exact (successful_build_leaves_pkg_config_path (H:=Sim.host Sim.all_ok)
           Sim.release_builder "/out" "jansson" "jansson"
           JANSSON_EXTRA_CMAKE_FLAGS (Sim.start []) Hok).
Defined.

(** Both platforms are installed and every tool succeeds. *)
Lemma merge_libs_merges_before_failing_witness :
  result
    (merge_libs (H:=Sim.host Sim.all_ok) Sim.release_builder "/out" "avro"
       (Sim.start Sim.built))
  = Raise (NameError "final_lib_path")
  ∧ exists libs1 libs2,
      calls
        (log (merge_libs (H:=Sim.host Sim.all_ok) Sim.release_builder "/out"
                "avro" (Sim.start Sim.built)))
      = merge_platform_plan (Sim.host Sim.all_ok) "/out" "avro" libs1 libs2
      ∧ Sys (Glob "/out/SIMULATOR64/lib/*.a") (Matched libs1)
        ∈ log (merge_libs (H:=Sim.host Sim.all_ok) Sim.release_builder "/out"
                 "avro" (Sim.start Sim.built))
      ∧ Sys (Glob "/out/OS64/lib/*.a") (Matched libs2)
        ∈ log (merge_libs (H:=Sim.host Sim.all_ok) Sim.release_builder "/out"
                 "avro" (Sim.start Sim.built)).
Proof.
  assert (result
            (merge_libs (H:=Sim.host Sim.all_ok) Sim.release_builder "/out"
               "avro" (Sim.start Sim.built))
          = Raise (NameError "final_lib_path")) as Hname
    by (vm_compute; reflexivity).
  split; [exact Hname|].
  exact (merge_libs_merges_before_failing (H:=Sim.host Sim.all_ok)
           Sim.release_builder "/out" "avro" (Sim.start Sim.built) Hname).
Defined.
